(** * KYC extractor: extraction fallback loop and spreadsheet store

    A shallow embedding of [main.py]: the multi-model extraction loop
    [enhanced_gemini_extraction], the spreadsheet store
    ([create_excel_file], [load_excel_data], [save_to_excel],
    [download_excel_file]) and the two module-level pieces the store is fed
    from (the edit form that rebuilds the working record, and the
    single-record export).

    Python objects are modelled by the values they denote:
    - a number is [pynum]: a [bool], an [int] (as [Z]) or a [float]; a finite
      binary64 float is represented by the rational it is equal to, so every
      comparison is exact, as Python's is;
    - a [dict] is an association list in insertion order;
    - a raised exception is a value of [exn], threaded through a small
      state-and-exception monad;
    - what the outside world does is an input: what each Gemini call
      returns or raises, which accesses to the store file fail, what the
      text inputs of the form hold; what the program shows on the page is
      kept in the state;
    - a workbook is what was handed to pandas' writer; the rows pandas'
      reader finds in it are an input too, and no statement assumes
      anything of them. *)

From Stdlib Require Import List String Ascii Bool Arith ZArith QArith Lia.
From Stdlib Require Import DecimalString.
Import ListNotations.
Set Warnings "-register-all".
Open Scope list_scope.
Open Scope string_scope.

(** ** Python values *)

(** The value of a [float]: a finite binary64 (as a rational), an infinity or
    a NaN. [json.loads] produces all of them. *)
Inductive fl : Type :=
| Fin (q : Q)
| PosInf
| NegInf
| NaN.

Inductive pynum : Type :=
| PBool (b : bool)
| PInt (z : Z)
| PFloat (f : fl).

(** What [json.loads] returns. *)
Inductive json : Type :=
| JNull
| JNum (n : pynum)
| JStr (s : string)
| JArr (l : list json)
| JObj (d : list (string * json)).

Definition dict : Type := list (string * json).

Definition float_lit (q : Q) : json := JNum (PFloat (Fin q)).

(** [0.98] as Python reads it: the binary64 nearest to 98/100,
    [0x1.f5c28f5c28f5cp-1]. *)
Definition f_0_98 : pynum := PFloat (Fin (2206763817411543 # 2251799813685248)).
Definition f_0_0 : pynum := PFloat (Fin 0).
Definition f_neg_1_0 : pynum := PFloat (Fin (-1)).

Definition num_value (n : pynum) : fl :=
  match n with
  | PBool true => Fin 1
  | PBool false => Fin 0
  | PInt z => Fin (inject_Z z)
  | PFloat f => f
  end.

Definition Qgtb (x y : Q) : bool := negb (Qle_bool x y).

(** [a > b] on float values; any comparison with a NaN is [False]. *)
Definition fl_gt (a b : fl) : bool :=
  match a, b with
  | Fin x, Fin y => Qgtb x y
  | PosInf, Fin _ => true
  | PosInf, NegInf => true
  | Fin _, NegInf => true
  | _, _ => false
  end.

(** [a == b] on float values. *)
Definition fl_eq (a b : fl) : bool :=
  match a, b with
  | Fin x, Fin y => Qeq_bool x y
  | PosInf, PosInf => true
  | NegInf, NegInf => true
  | _, _ => false
  end.

Definition num_gt (a b : pynum) : bool := fl_gt (num_value a) (num_value b).
Definition num_eq (a b : pynum) : bool := fl_eq (num_value a) (num_value b).

Definition fl_truthy (f : fl) : bool :=
  match f with
  | Fin q => negb (Qeq_bool q 0)
  | _ => true
  end.

Definition num_truthy (n : pynum) : bool :=
  match n with
  | PBool b => b
  | PInt z => negb (Z.eqb z 0)
  | PFloat f => fl_truthy f
  end.

(** [bool(v)]. *)
Definition truthy (v : json) : bool :=
  match v with
  | JNull => false
  | JNum n => num_truthy n
  | JStr s => negb (String.eqb s "")
  | JArr l => match l with [] => false | _ => true end
  | JObj d => match d with [] => false | _ => true end
  end.

(** [a or b]. *)
Definition py_or (a b : json) : json := if truthy a then a else b.

(** [type(v).__name__]. *)
Definition num_type_name (n : pynum) : string :=
  match n with
  | PBool _ => "bool"
  | PInt _ => "int"
  | PFloat _ => "float"
  end.

Definition type_name (v : json) : string :=
  match v with
  | JNull => "NoneType"
  | JNum n => num_type_name n
  | JStr _ => "str"
  | JArr _ => "list"
  | JObj _ => "dict"
  end.

(** ** Dictionaries *)

Fixpoint dict_get (k : string) (d : dict) : option json :=
  match d with
  | [] => None
  | (k', v) :: d' => if String.eqb k k' then Some v else dict_get k d'
  end.

(** [d.get(k, dflt)]. *)
Definition dict_get_default (k : string) (dflt : json) (d : dict) : json :=
  match dict_get k d with
  | Some v => v
  | None => dflt
  end.

(** [d[k] = v]: an existing key keeps its place, a new key goes last. *)
Fixpoint dict_set (k : string) (v : json) (d : dict) : dict :=
  match d with
  | [] => [(k, v)]
  | (k', v') :: d' =>
      if String.eqb k k' then (k', v) :: d' else (k', v') :: dict_set k v d'
  end.

Definition dict_keys (d : dict) : list string := map fst d.
Definition dict_values (d : dict) : list json := map snd d.

(** [k in d]. *)
Definition dict_mem (k : string) (d : dict) : bool :=
  match dict_get k d with
  | Some _ => true
  | None => false
  end.

(** ** Streamlit output *)

Inductive ui_event : Type :=
| st_write (s : string)
| st_warning (s : string)
| st_error (s : string)
| st_success (s : string).

(** ** The record schema *)

(** [KYCFormData.model_fields.keys()], in declaration order. *)
Definition EXCEL_COLUMNS : list string :=
  [ "document_title"; "society_name"; "control_number"; "name";
    "father_husband_name"; "designation"; "bill_unit_number"; "department";
    "sr_number"; "office_address"; "residential_address"; "date_of_birth";
    "date_of_appointment"; "mobile_number"; "pan_number"; "aadhar_number";
    "bank_name"; "branch_name"; "branch_code"; "account_number"; "ifsc_code";
    "nominee_name"; "nominee_relation"; "nominee_dob"; "nominee_aadhar";
    "nominee_pan"; "confidence_score"; "model_used" ].

(** ** State and exceptions

    A computation reads and updates a state [S] and either returns a value or
    raises an exception of type [E]; the state reached when the exception is
    raised is kept, as in Python. *)

Section Monad.
Context {S E : Type}.

Definition Comp (A : Type) : Type := S -> S * (E + A).

Definition ret {A} (a : A) : Comp A := fun s => (s, inr a).
Definition raise {A} (e : E) : Comp A := fun s => (s, inl e).
Definition bind {A B} (m : Comp A) (k : A -> Comp B) : Comp B :=
  fun s =>
    match m s with
    | (s', inr a) => k a s'
    | (s', inl e) => (s', inl e)
    end.
Definition gets {A} (f : S -> A) : Comp A := fun s => (s, inr (f s)).
Definition modify (f : S -> S) : Comp unit := fun s => (f s, inr tt).
End Monad.

Arguments Comp : clear implicits.

Notation "x <- m ;; k" := (bind m (fun x => k))
  (at level 61, m at next level, right associativity).
Notation "m ;; k" := (bind m (fun _ => k))
  (at level 61, right associativity).

(** ** The extraction loop *)

Module Extraction_loop.

(** Exceptions the [try] block can raise. *)
Inductive exn : Type :=
| BackendError (msg : string)
    (** raised by [GenerativeModel], [generate_content], [response.text] or
        [json.loads]; [msg] is [str(e)] *)
| AttributeError (v : json)
    (** [result_data.get] on a value that is not a dict *)
| TypeError (l : json) (r : pynum)
    (** [l > r] with [l] not a number *).

Definition str_exn (e : exn) : string :=
  match e with
  | BackendError msg => msg
  | AttributeError v =>
      "'" ++ type_name v ++ "' object has no attribute 'get'"
  | TypeError l r =>
      "'>' not supported between instances of '" ++ type_name l ++
      "' and '" ++ num_type_name r ++ "'"
  end.

(** What one backend call does: it raises, or [json.loads(response.text)]
    returns a value. *)
Inductive outcome : Type :=
| Raises (msg : string)
| Responds (result_data : json).

(** The function's variables, the models called so far and the screen. *)
Record state : Type := mkState {
  best_result : option dict;
  highest_confidence : pynum;
  errors : list string;
  calls : list string;
  screen : list ui_event
}.

Definition set_best (r : dict) (c : pynum) (s : state) : state :=
  mkState (Some r) c (errors s) (calls s) (screen s).
Definition add_error (m : string) (s : state) : state :=
  mkState (best_result s) (highest_confidence s) (errors s ++ [m])%list (calls s)
    (screen s).
Definition add_call (m : string) (s : state) : state :=
  mkState (best_result s) (highest_confidence s) (errors s) (calls s ++ [m])%list
    (screen s).
Definition show (e : ui_event) (s : state) : state :=
  mkState (best_result s) (highest_confidence s) (errors s) (calls s)
    (screen s ++ [e])%list.

Definition M : Type -> Type := Comp state exn.

(** [model.generate_content(...)] followed by [json.loads(response.text)]. *)
Definition generate_content (model_name : string) (o : outcome) : M json :=
  modify (add_call model_name) ;;
  match o with
  | Raises msg => raise (BackendError msg)
  | Responds v => ret v
  end.

(** [result_data.get('confidence_score', 0.0) or 0.0]. *)
Definition confidence_of (d : dict) : json :=
  py_or (dict_get_default "confidence_score" (JNum f_0_0) d) (JNum f_0_0).

(** The receiver of [result_data.get]: only a dict has the method. *)
Definition as_dict (result_data : json) : M dict :=
  match result_data with
  | JObj d => ret d
  | v => raise (AttributeError v)
  end.

(** The left operand of [confidence > highest_confidence]: the comparison
    with a number raises unless it is a number itself. *)
Definition as_number (confidence : json) : M pynum :=
  match confidence with
  | JNum c => ret c
  | v => highest <- gets highest_confidence ;; raise (TypeError v highest)
  end.

Inductive control : Type := Next | Break.

Definition trying (model_name : string) : ui_event :=
  st_write ("⚙️ Trying model: `" ++ model_name ++ "`...").

Definition finalizing : ui_event :=
  st_write "✅ High confidence result achieved. Finalizing...".

Definition failure_message (model_name reason : string) : string :=
  "Model `" ++ model_name ++ "` failed: " ++ reason.

(** The body of the [try] block for one model. The two comparisons have the
    same left operand, so the first one raises whenever the second would,
    before anything is assigned. *)
Definition try_body (model_name : string) (o : outcome) : M control :=
  modify (show (trying model_name)) ;;
  response <- generate_content model_name o ;;
  result_data <- as_dict response ;;
  confidence <- as_number (confidence_of result_data) ;;
  highest <- gets highest_confidence ;;
  (if num_gt confidence highest
   then modify (set_best (dict_set "model_used" (JStr model_name) result_data)
                  confidence)
   else ret tt) ;;
  if num_gt confidence f_0_98
  then modify (show finalizing) ;; ret Break
  else ret Next.

(** The [except] block. *)
Definition except_body (model_name : string) (e : exn) (s : state) : state :=
  let error_message := failure_message model_name (str_exn e) in
  show (st_warning error_message) (add_error error_message s).

(** [for model_name in models_to_try: try: ... except: ...; continue]. *)
Fixpoint for_models (models : list (string * outcome)) (s : state) : state :=
  match models with
  | [] => s
  | (model_name, o) :: rest =>
      match try_body model_name o s with
      | (s', inr Break) => s'
      | (s', inr Next) => for_models rest s'
      | (s', inl e) => for_models rest (except_body model_name e s')
      end
  end.

Definition initial : state := mkState None f_neg_1_0 [] [] [].

(** [not best_result]. *)
Definition not_result (r : option dict) : bool :=
  match r with
  | None => true
  | Some d => negb (truthy (JObj d))
  end.

Definition all_failed_message : string :=
  "All models failed to process the image. Please check the API key, quotas, and image quality.".

(** [bool(l)] for a list. *)
Definition nonempty {A} (l : list A) : bool :=
  match l with
  | [] => false
  | _ => true
  end.

(** The function from [best_result = None] on, for any candidate list, each
    candidate paired with what its call does: the final state (the
    variables, the calls made and the screen). The image and the prompt play
    no part in the control flow and are left out. *)
Definition run (models : list (string * outcome)) : state :=
  let s := for_models models initial in
  if not_result (best_result s) && nonempty (errors s)
  then show (st_error all_failed_message) s
  else s.

(** What the function returns: [best_result], and nothing else. *)
Definition returned (models : list (string * outcome)) : option dict :=
  best_result (run models).

Definition models_to_try : list string :=
  [ "gemini-1.5-pro-latest"; "gemini-1.5-flash-latest" ].

(** The candidate list of the source, given what a call to each model
    does. *)
Definition candidates (gemini : string -> outcome) : list (string * outcome) :=
  map (fun model_name => (model_name, gemini model_name)) models_to_try.

(** [enhanced_gemini_extraction(image)]. *)
Definition enhanced_gemini_extraction (gemini : string -> outcome)
  : option dict :=
  returned (candidates gemini).

(** *** Vocabulary for the statements *)

(** The number a call is scored with when the [try] block runs to its end:
    the response is a dict whose defaulted confidence is a number. In every
    other case the [except] block runs. *)
Definition scored (o : outcome) : option pynum :=
  match o with
  | Responds (JObj d) =>
      match confidence_of d with
      | JNum n => Some n
      | _ => None
      end
  | _ => None
  end.

(** The call ends the loop. *)
Definition early_exit (o : outcome) : bool :=
  match scored o with
  | Some c => num_gt c f_0_98
  | None => false
  end.

(** The candidates up to and including the first one that ends the loop. *)
Fixpoint consulted (models : list (string * outcome))
  : list (string * outcome) :=
  match models with
  | [] => []
  | (model_name, o) :: rest =>
      if early_exit o then [(model_name, o)]
      else (model_name, o) :: consulted rest
  end.

(** The state after a call scored [c] with the response [d]. *)
Definition scored_state (model_name : string) (d : dict) (c : pynum)
  (s : state) : state :=
  let s1 := add_call model_name (show (trying model_name) s) in
  let s2 :=
    if num_gt c (highest_confidence s)
    then set_best (dict_set "model_used" (JStr model_name) d) c s1
    else s1 in
  if num_gt c f_0_98 then show finalizing s2 else s2.

(** The loop's invariant: without a result the highest confidence is still
    the initial one, and a result carries the name of its model. *)
Definition stamped (s : state) : Prop :=
  match best_result s with
  | None => highest_confidence s = f_neg_1_0
  | Some r => exists model_name, dict_get "model_used" r = Some (JStr model_name)
  end.

(** *** Sample responses *)

(** [0.6] and [0.9] as Python reads them. *)
Definition f_0_6 : json := float_lit (5404319552844595 # 9007199254740992).
Definition f_0_9 : json := float_lit (8106479329266893 # 9007199254740992).

Definition half : json := float_lit (1 # 2).
Definition nearly_one : json := float_lit (127 # 128).
Definition one : json := float_lit 1.

Definition respond (name : string) (confidence : json) : outcome :=
  Responds (JObj [("name", JStr name); ("confidence_score", confidence)]).

(** The call ends in the [except] block. *)
Definition failed (o : outcome) : bool :=
  match scored o with
  | Some _ => false
  | None => true
  end.

(** What the loop itself puts on the screen: lines and warnings. *)
Definition loop_event (e : ui_event) : bool :=
  match e with
  | st_write _ | st_warning _ => true
  | _ => false
  end.

(** A backend whose pro model does [pro] and whose flash model does
    [flash]. *)
Definition backend (pro flash : outcome) (model_name : string) : outcome :=
  if String.eqb model_name "gemini-1.5-pro-latest" then pro else flash.

End Extraction_loop.

(** ** The spreadsheet store *)

Module Store.

Definition EXCEL_FILE_PATH : string := "kyc_database.xlsx".

(** *** Data frames

    A frame is its column labels and its rows, each row holding one cell per
    column. A missing cell, [None] and pandas' [NaN] are all [JNull]. *)
Record DataFrame : Type := mkDF {
  columns : list string;
  rows : list (list json)
}.

(** [pd.DataFrame(columns=cols)]. *)
Definition empty_frame (cols : list string) : DataFrame := mkDF cols [].

(** [pd.DataFrame([d])]: one row, the columns are the keys of [d] in order. *)
Definition frame_of_record (d : dict) : DataFrame :=
  mkDF (dict_keys d) [dict_values d].

(** [col in df.columns]. *)
Definition has_column (col : string) (df : DataFrame) : bool :=
  existsb (String.eqb col) (columns df).

(** The cell of [row] under the label [col]. *)
Fixpoint row_get (cols : list string) (row : list json) (col : string)
  : option json :=
  match cols, row with
  | k :: cols', x :: row' =>
      if String.eqb col k then Some x else row_get cols' row' col
  | _, _ => None
  end.

Fixpoint row_put (cols : list string) (row : list json) (col : string)
  (v : json) : list json :=
  match cols, row with
  | k :: cols', x :: row' =>
      if String.eqb col k then v :: row' else x :: row_put cols' row' col v
  | _, _ => row
  end.

(** [df[col] = v] with a scalar [v]: an existing column is overwritten, a new
    one is added last. *)
Definition set_column (col : string) (v : json) (df : DataFrame) : DataFrame :=
  if has_column col df
  then mkDF (columns df) (map (fun r => row_put (columns df) r col v) (rows df))
  else mkDF (columns df ++ [col])%list (map (fun r => r ++ [v])%list (rows df)).

(** A row laid out under other labels; a label the row does not have gives a
    null cell. *)
Definition reindex (from to : list string) (row : list json) : list json :=
  map (fun col => match row_get from row col with
                  | Some v => v
                  | None => JNull
                  end) to.

Inductive exn : Type :=
| OSError (msg : string)     (** the file cannot be read or written *)
| BadFile (msg : string)     (** the file is not a workbook *)
| KeyError (col : string)    (** a selected column is not in the frame *).

Definition str_exn (e : exn) : string :=
  match e with
  | OSError msg => msg
  | BadFile msg => msg
  | KeyError col => "'" ++ col ++ "'"
  end.

(** [df[cols]]. *)
Definition select (cols : list string) (df : DataFrame) : exn + DataFrame :=
  match find (fun col => negb (has_column col df)) cols with
  | Some col => inl (KeyError col)
  | None => inr (mkDF cols (map (reindex (columns df) cols) (rows df)))
  end.

(** [pd.concat([a, b], ignore_index=True)]: the columns of [a], then those of
    [b] that [a] lacks; the rows of [a], then the rows of [b]. *)
Definition concat (a b : DataFrame) : DataFrame :=
  let cols :=
    (columns a ++ filter (fun col => negb (has_column col a)) (columns b))%list in
  mkDF cols
    (map (reindex (columns a) cols) (rows a) ++
     map (reindex (columns b) cols) (rows b))%list.

(** *** Workbooks

    A workbook, on disk or in a buffer, is recorded as it was written: the
    sheet's name, the header row and the body rows handed to the writer.
    What a later read makes of the body is not the writer's doing and is
    kept apart, in [Reader]. *)
Record workbook : Type := mkWB {
  sheet_name : string;
  header : list string;
  body : list (list json)
}.

Fixpoint number_rows (i : nat) (rs : list (list json)) : list (list json) :=
  match rs with
  | [] => []
  | r :: rs' => (JNum (PInt (Z.of_nat i)) :: r) :: number_rows (S i) rs'
  end.

(** [df.to_excel(target, sheet_name=name, index=index)]: with [index] the row
    numbers are written as a first column under a blank header cell. *)
Definition to_excel (df : DataFrame) (name : string) (index : bool) : workbook :=
  if index
  then mkWB name ("" :: columns df) (number_rows 0 (rows df))
  else mkWB name (columns df) (rows df).

(** The labels [read_excel] gives the header cells: a blank cell in position
    [i] is labelled [Unnamed: i]. *)
Fixpoint label_columns (i : nat) (hs : list string) : list string :=
  match hs with
  | [] => []
  | h :: hs' =>
      (if String.eqb h ""
       then "Unnamed: " ++ NilEmpty.string_of_uint (Nat.to_uint i)
       else h) :: label_columns (S i) hs'
  end.

(** The rows [pd.read_excel] finds in a workbook. They are not the rows that
    were written: pandas infers the cells' types again (a text that looks
    like a number comes back as a number, without its leading zeros), takes
    texts such as [N/A] for missing cells, and finds no row at the end of the
    sheet whose cells are all blank. That is library code; it is a parameter
    here and nothing is assumed of it. *)
Class Reader : Type := { read_body : workbook -> list (list json) }.

(** A reader that finds every cell as it was written. It serves in the closed
    examples only, none of which depends on what is read. *)
Definition as_written : Reader := {| read_body := body |}.

(** *** The file system

    The state of the one file [EXCEL_FILE_PATH], the faults the next accesses
    to it will meet, and the screen. A file that is no readable workbook
    carries what reading it raises, which depends on its bytes. *)
Inductive file_state : Type :=
| Absent
| Stored (wb : workbook)
| Corrupt (why : string).

(** What happens at one access to the file: it goes through, it is refused
    before the file is touched, or (a write) it breaks off after the file has
    been opened for writing, which leaves no readable workbook; [remains]
    is what reading the file raises from then on. *)
Inductive fault : Type :=
| NoFault
| Refused (msg : string)
| Torn (msg remains : string).

Record world : Type := mkWorld {
  disk : file_state;
  faults : list fault;
  screen : list ui_event
}.

Definition M : Type -> Type := Comp world exn.

Definition set_disk (f : file_state) (w : world) : world :=
  mkWorld f (faults w) (screen w).
Definition show (e : ui_event) (w : world) : world :=
  mkWorld (disk w) (faults w) (screen w ++ [e])%list.

(** The fault met by the next access; a finished script means no fault. *)
Definition next_fault : M fault :=
  fun w =>
    (mkWorld (disk w) (tl (faults w)) (screen w),
     inr (hd NoFault (faults w))).

(** [os.path.exists(EXCEL_FILE_PATH)]. *)
Definition path_exists : M bool :=
  gets (fun w => match disk w with Absent => false | _ => true end).

(** [df.to_excel(EXCEL_FILE_PATH, index=False)]. *)
Definition to_excel_path (df : DataFrame) : M unit :=
  f <- next_fault ;;
  match f with
  | NoFault => modify (set_disk (Stored (to_excel df "Sheet1" false)))
  | Refused msg => raise (OSError msg)
  | Torn msg remains =>
      modify (set_disk (Corrupt remains)) ;; raise (OSError msg)
  end.

Section With_reader.
Context {reader : Reader}.

(** [pd.read_excel(source)] on a readable workbook. *)
Definition read_excel (wb : workbook) : DataFrame :=
  mkDF (label_columns 0 (header wb)) (read_body wb).

(** [pd.read_excel(EXCEL_FILE_PATH)]. *)
Definition read_excel_path : M DataFrame :=
  f <- next_fault ;;
  match f with
  | NoFault =>
      d <- gets disk ;;
      match d with
      | Stored wb => ret (read_excel wb)
      | Corrupt why => raise (BadFile why)
      | Absent => raise (OSError "No such file or directory")
      end
  | Refused msg | Torn msg _ => raise (OSError msg)
  end.

(** *** The store functions *)

Definition create_excel_file : M DataFrame :=
  present <- path_exists ;;
  if negb present
  then
    let df := empty_frame EXCEL_COLUMNS in
    to_excel_path df ;;
    modify (show (st_success
      ("✅ Created new database file: " ++ EXCEL_FILE_PATH))) ;;
    ret df
  else read_excel_path.

Definition load_excel_data : M DataFrame := create_excel_file.

(** The loop [for col in EXCEL_COLUMNS: if col not in new_record.columns:
    new_record[col] = None]. *)
Definition ensure_columns (cols : list string) (new_record : DataFrame)
  : DataFrame :=
  fold_left
    (fun nr col => if negb (has_column col nr) then set_column col JNull nr
                   else nr)
    cols new_record.

Definition lift {A} (r : exn + A) : M A :=
  match r with
  | inl e => raise e
  | inr a => ret a
  end.

(** The [try] block of [save_to_excel]. *)
Definition save_body (data_dict : dict) : M bool :=
  df <- load_excel_data ;;
  let new_record := frame_of_record data_dict in
  let new_record := ensure_columns EXCEL_COLUMNS new_record in
  new_record <- lift (select EXCEL_COLUMNS new_record) ;;
  let df := concat df new_record in
  to_excel_path df ;;
  modify (show (st_success
    ("✅ Data successfully saved to " ++ EXCEL_FILE_PATH))) ;;
  ret true.

Definition save_to_excel (data_dict : dict) (w : world) : world * bool :=
  match save_body data_dict w with
  | (w', inr b) => (w', b)
  | (w', inl e) =>
      (show (st_error ("❌ Error saving to Excel: " ++ str_exn e)) w', false)
  end.

(** The [try] block of [download_excel_file]; the buffer's bytes are the
    workbook written into it. *)
Definition download_body : M workbook :=
  df <- load_excel_data ;;
  ret (to_excel df "KYC_Data" false).

Definition download_excel_file (w : world) : world * option workbook :=
  match download_body w with
  | (w', inr bytes) => (w', Some bytes)
  | (w', inl e) =>
      (show (st_error ("Error preparing Excel download: " ++ str_exn e)) w',
       None)
  end.

(** *** Store states the program can reach

    The file starts absent; after that only [load_excel_data] (sidebar),
    [download_excel_file] and [save_to_excel] touch it, under any faults. *)
Inductive reachable : file_state -> Prop :=
| reach_fresh : reachable Absent
| reach_load w w' r :
    reachable (disk w) -> load_excel_data w = (w', r) -> reachable (disk w')
| reach_download w w' r :
    reachable (disk w) -> download_excel_file w = (w', r) ->
    reachable (disk w')
| reach_save data_dict w w' r :
    reachable (disk w) -> save_to_excel data_dict w = (w', r) ->
    reachable (disk w').

(** The rows a load finds in the store file. *)
Definition loaded_rows (f : file_state) : list (list json) :=
  match f with
  | Stored wb => read_body wb
  | _ => []
  end.

End With_reader.

(** *** The edit form and the single-record export (module level) *)

Definition personal_info : list string :=
  [ "name"; "father_husband_name"; "date_of_birth"; "mobile_number";
    "pan_number"; "aadhar_number" ].
Definition employment_info : list string :=
  [ "control_number"; "designation"; "bill_unit_number"; "department";
    "sr_number"; "date_of_appointment" ].
Definition address_info : list string :=
  [ "office_address"; "residential_address" ].
Definition bank_info : list string :=
  [ "bank_name"; "branch_name"; "branch_code"; "account_number"; "ifsc_code" ].
Definition nominee_info : list string :=
  [ "nominee_name"; "nominee_relation"; "nominee_dob"; "nominee_aadhar";
    "nominee_pan" ].

Section Edit_form.
(** [st.text_input(label, value=initial, key="edit_" + field)]: the text
    now in the widget of that field, given the value it was first shown
    with. *)
Variable text_input : string -> json -> string.

(** [create_form_section(title, fields)], on [edited_data_temp]. *)
Definition create_form_section (data_to_edit : dict) (fields : list string)
  (edited_data_temp : dict) : dict :=
  fold_left
    (fun temp field =>
       if dict_mem field data_to_edit
       then dict_set field
              (JStr (text_input field
                       (py_or (dict_get_default field (JStr "") data_to_edit)
                              (JStr ""))))
              temp
       else temp)
    fields edited_data_temp.

(** The body of [with tab1:]: the record left in
    [st.session_state.edited_data]. *)
Definition edit_form (data_to_edit : dict) : dict :=
  let temp := [] in
  let temp := create_form_section data_to_edit personal_info temp in
  let temp := create_form_section data_to_edit employment_info temp in
  let temp := create_form_section data_to_edit address_info temp in
  let temp := create_form_section data_to_edit bank_info temp in
  let temp := create_form_section data_to_edit nominee_info temp in
  let temp := dict_set "document_title"
                (dict_get_default "document_title" JNull data_to_edit) temp in
  let temp := dict_set "society_name"
                (dict_get_default "society_name" JNull data_to_edit) temp in
  temp.
End Edit_form.

(** "Download as Excel": the bytes offered for the current record. *)
Definition download_record (edited_data : dict) : workbook :=
  let df_single := frame_of_record edited_data in
  to_excel df_single "KYC_Record" false.

(** A store file in the schema's layout: the header is [EXCEL_COLUMNS] and
    every row has one cell per column. *)
Definition schema_workbook (wb : workbook) : Prop :=
  header wb = EXCEL_COLUMNS /\
  Forall (fun r => List.length r = List.length EXCEL_COLUMNS) (body wb).

Definition store_ok (f : file_state) : Prop :=
  match f with
  | Absent => True
  | Stored wb => schema_workbook wb
  | Corrupt _ => True
  end.

(** The rows written in the store file; none while the file is absent. *)
Definition stored_rows (f : file_state) : option (list (list json)) :=
  match f with
  | Absent => Some []
  | Stored wb => Some (body wb)
  | Corrupt _ => None
  end.

(** The row [save_to_excel] lays out for [data_dict]: one cell per schema
    column, null where [data_dict] has no such key. *)
Definition schema_row (data_dict : dict) : list json :=
  map (fun col => dict_get_default col JNull data_dict) EXCEL_COLUMNS.

(** A one-row frame that holds [d] and null cells for the columns added. *)
Definition holds (d : dict) (nr : DataFrame) : Prop :=
  exists row,
    rows nr = [row] /\
    List.length row = List.length (columns nr) /\
    (forall col, dict_mem col d = true -> has_column col nr = true) /\
    (forall col, has_column col nr = true ->
                 row_get (columns nr) row col =
                 Some (dict_get_default col JNull d)).

Definition is_torn (f : fault) : bool :=
  match f with
  | Torn _ _ => true
  | _ => false
  end.

(** The store file as [create_excel_file] writes it: the schema's header and
    no row. *)
Definition fresh_workbook : workbook := mkWB "Sheet1" EXCEL_COLUMNS [].

(** What the form stores under a field: the text of its input, first shown
    with the record's value, or with nothing when that is absent or
    falsy. *)
Definition form_value (text_input : string -> json -> string)
  (data_to_edit : dict) (field : string) : json :=
  JStr (text_input field
          (py_or (dict_get_default field (JStr "") data_to_edit) (JStr ""))).

(** The fields of the form, in the order the form shows them. *)
Definition form_fields : list string :=
  (personal_info ++ employment_info ++ address_info ++ bank_info ++
   nominee_info)%list.

(** *** Sample data *)

(** The inputs as a user leaves them who keeps every text an input was shown
    with and clears an input shown with anything else. *)
Definition untouched (field : string) (initial : json) : string :=
  match initial with
  | JStr text => text
  | _ => ""
  end.

(** An extraction result with every key of the schema. *)
Definition sample_extraction : dict :=
  (map (fun col => (col, JStr "x")) (firstn 26 EXCEL_COLUMNS) ++
   [("confidence_score", float_lit 1);
    ("model_used", JStr "gemini-1.5-pro-latest")])%list.

Definition one_row_store : file_state :=
  Stored (mkWB "Sheet1" EXCEL_COLUMNS [schema_row sample_extraction]).

End Store.

(** ** The page around the record (module level) *)

Module Page.

(** [name.split('.')[0]]: the part of the name before its first dot. *)
Fixpoint before_dot (name : string) : string :=
  match name with
  | EmptyString => EmptyString
  | String c rest =>
      if Ascii.eqb c "." then EmptyString else String c (before_dot rest)
  end.

(** The name offered for the JSON download; [uploaded_file] is the name of
    the uploaded file, if there is one. *)
Definition json_file_name (uploaded_file : option string) : string :=
  match uploaded_file with
  | Some name => before_dot name ++ "_extracted.json"
  | None => "extracted_kyc_data.json"
  end.

(** The name offered for the single-record Excel download. *)
Definition excel_file_name (uploaded_file : option string) : string :=
  match uploaded_file with
  | Some name => before_dot name ++ "_kyc.xlsx"
  | None => "kyc_record.xlsx"
  end.

(** What formatting a value with [:.2f] raises. *)
Inductive format_error : Type :=
| ValueError (v : json)      (** a string *)
| TypeError (v : json)       (** [None], a list or a dict *)
| OverflowError (z : Z)      (** an int too large to convert to float *).

(** An int is formatted through [float]: the conversion rounds to the
    nearest binary64 and raises when that is [2**1024] or more, that is from
    [2**1024 - 2**970] on in absolute value. *)
Definition float_overflow (z : Z) : bool :=
  (2 ^ 1024 - 2 ^ 970 <=? Z.abs z)%Z.

Section Summary.
(** [f"{x:.2f}"] for a number [x] that can be formatted; the digits are not
    modelled. *)
Variable format_2f : pynum -> string.

(** [f"{v:.2f}"]. *)
Definition format_value (v : json) : format_error + string :=
  match v with
  | JNum (PInt z) =>
      if float_overflow z then inl (OverflowError z)
      else inr (format_2f (PInt z))
  | JNum n => inr (format_2f n)
  | JStr _ => inl (ValueError v)
  | _ => inl (TypeError v)
  end.

(** The value shown under "Confidence Score". *)
Definition confidence_metric (data_to_edit : dict)
  : format_error + string :=
  let confidence_score :=
    dict_get_default "confidence_score" (JNum (PInt 0)) data_to_edit in
  if truthy confidence_score
  then format_value confidence_score
  else inr "N/A".
End Summary.

(** The value shown under "Best Model Used". *)
Definition model_metric (data_to_edit : dict) : json :=
  dict_get_default "model_used" (JStr "Unknown") data_to_edit.

End Page.

(** * Properties of the extraction loop *)

Module Loop_facts.
Import Extraction_loop.

(** ** Numbers *)

Lemma Qgtb_irrefl_eq (x y : Q) : Qeq_bool x y = true -> Qgtb x y = false.
Proof.
  intros H. apply Qeq_bool_iff in H. unfold Qgtb.
  replace (Qle_bool x y) with true; [reflexivity|].
  symmetry. apply Qle_bool_iff. rewrite H. apply Qle_refl.
Qed.

Lemma fl_eq_not_gt (a b : fl) : fl_eq a b = true -> fl_gt a b = false.
Proof.
  destruct a, b; simpl; intros H; try reflexivity; try discriminate.
  now apply Qgtb_irrefl_eq.
Qed.

Lemma num_eq_not_gt (a b : pynum) : num_eq a b = true -> num_gt a b = false.
Proof. apply fl_eq_not_gt. Qed.

(** ** Dictionaries *)

Lemma dict_get_set_same (k : string) (v : json) (d : dict) :
  dict_get k (dict_set k v d) = Some v.
Proof.
  induction d as [|[k' v'] d IH]; simpl.
  - now rewrite String.eqb_refl.
  - destruct (String.eqb k k') eqn:E; simpl; rewrite E; [reflexivity|exact IH].
Qed.

(** ** One turn of the loop *)

Lemma try_body_scored (model_name : string) (d : dict) (c : pynum)
  (s : state) :
  confidence_of d = JNum c ->
  try_body model_name (Responds (JObj d)) s =
    (scored_state model_name d c s,
     inr (if num_gt c f_0_98 then Break else Next)).
Proof.
  intros Hc. unfold scored_state, try_body, bind, modify, gets,
    generate_content, as_dict, as_number, ret, bind.
  cbn -[num_gt f_0_98 dict_set]. rewrite Hc. cbn -[num_gt f_0_98 dict_set].
  destruct (num_gt c (highest_confidence s)); cbn -[num_gt f_0_98 dict_set];
    destruct (num_gt c f_0_98); reflexivity.
Qed.

Lemma try_body_failed (model_name : string) (o : outcome) (s : state) :
  scored o = None ->
  exists e,
    try_body model_name o s =
      (add_call model_name (show (trying model_name) s), inl e).
Proof.
  intros Hs. destruct o as [msg|v]; [eexists; reflexivity|].
  destruct v as [|n|t|l|d]; try (eexists; reflexivity).
  unfold scored in Hs.
  destruct (confidence_of d) as [|n|t|l|d'] eqn:Hc; try discriminate;
    eexists; unfold try_body, bind, modify, gets, generate_content,
      as_dict, as_number, ret, raise, bind;
    cbn -[num_gt f_0_98 dict_set]; rewrite Hc; reflexivity.
Qed.

Lemma scored_inv (o : outcome) (c : pynum) :
  scored o = Some c ->
  exists d, o = Responds (JObj d) /\ confidence_of d = JNum c.
Proof.
  destruct o as [msg|v]; [discriminate|].
  destruct v as [|n|t|l|d]; try discriminate.
  unfold scored. destruct (confidence_of d) eqn:Hc; try discriminate.
  intros [= ->]. now exists d.
Qed.

(** A scored call: the result is replaced when the confidence is higher, and
    the screen says so when the loop is about to stop. *)
Lemma turn_scored (model_name : string) (d : dict) (c : pynum) (s : state) :
  confidence_of d = JNum c ->
  for_models [(model_name, Responds (JObj d))] s =
    scored_state model_name d c s.
Proof.
  intros Hc. unfold for_models. rewrite (try_body_scored _ _ _ _ Hc).
  destruct (num_gt c f_0_98); reflexivity.
Qed.

(** A failed call: nothing but the error list, the calls and the screen
    changes. *)
Lemma turn_failed (model_name : string) (o : outcome) (s : state) :
  scored o = None ->
  exists reason,
    for_models [(model_name, o)] s =
      let error_message := failure_message model_name reason in
      show (st_warning error_message)
        (add_error error_message
           (add_call model_name (show (trying model_name) s))).
Proof.
  intros Hs. destruct (try_body_failed model_name o s Hs) as [e He].
  exists (str_exn e). unfold for_models. rewrite He. reflexivity.
Qed.

Lemma for_models_cons (model_name : string) (o : outcome)
  (rest : list (string * outcome)) (s : state) :
  for_models ((model_name, o) :: rest) s =
    if early_exit o then for_models [(model_name, o)] s
    else for_models rest (for_models [(model_name, o)] s).
Proof.
  unfold early_exit. destruct (scored o) as [c|] eqn:Hs.
  - destruct (scored_inv _ _ Hs) as [d [-> Hc]]. cbn [for_models].
    rewrite (try_body_scored _ _ _ _ Hc).
    destruct (num_gt c f_0_98); reflexivity.
  - destruct (try_body_failed model_name o s Hs) as [e He].
    cbn [for_models]. rewrite He. reflexivity.
Qed.

Lemma turn_calls (model_name : string) (o : outcome) (s : state) :
  calls (for_models [(model_name, o)] s) = (calls s ++ [model_name])%list.
Proof.
  destruct (scored o) as [c|] eqn:Hs.
  - destruct (scored_inv _ _ Hs) as [d [-> Hc]].
    rewrite (turn_scored _ _ _ _ Hc). unfold scored_state.
    destruct (num_gt c (highest_confidence s)), (num_gt c f_0_98);
      reflexivity.
  - destruct (turn_failed model_name o s Hs) as [reason ->]. reflexivity.
Qed.

(** ** The candidates consulted *)

Lemma for_models_consulted (models : list (string * outcome)) (s : state) :
  for_models models s = for_models (consulted models) s.
Proof.
  revert s. induction models as [|[model_name o] rest IH]; intros s.
  - reflexivity.
  - rewrite for_models_cons. cbn [consulted].
    destruct (early_exit o) eqn:He; [reflexivity|].
    rewrite (for_models_cons model_name o (consulted rest) s), He. apply IH.
Qed.

Lemma consulted_prefix (models : list (string * outcome)) :
  exists rest, models = (consulted models ++ rest)%list.
Proof.
  induction models as [|[model_name o] rest IH].
  - now exists [].
  - cbn [consulted]. destruct (early_exit o).
    + now exists rest.
    + destruct IH as [rest' IH]. exists rest'. cbn. now rewrite <- IH.
Qed.

Lemma for_models_calls (models : list (string * outcome)) (s : state) :
  calls (for_models models s) = (calls s ++ map fst (consulted models))%list.
Proof.
  revert s. induction models as [|[model_name o] rest IH]; intros s.
  - cbn. now rewrite app_nil_r.
  - rewrite for_models_cons. cbn [consulted].
    destruct (early_exit o).
    + now rewrite turn_calls.
    + rewrite IH, turn_calls, <- app_assoc. reflexivity.
Qed.

Lemma run_calls (models : list (string * outcome)) :
  calls (run models) = map fst (consulted models).
Proof.
  unfold run.
  destruct (not_result _ && _); cbn [calls show];
    now rewrite for_models_calls.
Qed.

(** C7: the models are called in list order, each position of the list at
    most once: the sequence of calls is an initial segment of the candidate
    list (the candidates up to the one that ends the loop), so there are at
    most as many calls as candidates. *)
Theorem C7_calls_in_order_at_most_once (models : list (string * outcome)) :
  calls (run models) = map fst (consulted models) /\
  (exists rest, map fst models = (calls (run models) ++ rest)%list) /\
  (List.length (calls (run models)) <= List.length models)%nat.
Proof.
  rewrite run_calls. split; [reflexivity|].
  destruct (consulted_prefix models) as [rest Hrest]. split.
  - exists (map fst rest). rewrite Hrest at 1. apply map_app.
  - rewrite Hrest at 2. rewrite length_map, length_app. lia.
Qed.

(** ** Early exit *)

Lemma consulted_stops (pre post : list (string * outcome))
  (model_name : string) (o : outcome) :
  early_exit o = true ->
  consulted (pre ++ (model_name, o) :: post) =
  consulted (pre ++ [(model_name, o)]).
Proof.
  intros He. induction pre as [|[m' o'] pre IH]; cbn [consulted app].
  - now rewrite He.
  - destruct (early_exit o'); [reflexivity|]. now rewrite IH.
Qed.

Lemma run_consulted (models : list (string * outcome)) :
  run models = run (consulted models).
Proof. unfold run. now rewrite <- for_models_consulted. Qed.

(** C5: once a call is scored above 0.98, what comes after it in the list
    plays no part in the run, and every call made is for a position up to
    that one. *)
Theorem C5_no_call_after_high_confidence (pre post : list (string * outcome))
  (model_name : string) (o : outcome) (c : pynum)
  (Hscored : scored o = Some c) (Hhigh : num_gt c f_0_98 = true) :
  run (pre ++ (model_name, o) :: post) = run (pre ++ [(model_name, o)]) /\
  exists rest,
    (map fst pre ++ [model_name])%list =
    (calls (run (pre ++ (model_name, o) :: post)) ++ rest)%list.
Proof.
  assert (He : early_exit o = true) by (unfold early_exit; now rewrite Hscored).
  split.
  - rewrite run_consulted, (consulted_stops _ _ _ _ He), <- run_consulted.
    reflexivity.
  - rewrite run_calls, (consulted_stops _ _ _ _ He).
    destruct (consulted_prefix (pre ++ [(model_name, o)])) as [rest Hrest].
    exists (map fst rest).
    rewrite <- map_app, <- Hrest, map_app. reflexivity.
Qed.

Lemma C5_witness :
  run [("a", respond "A" half); ("b", respond "B" one);
       ("c", respond "C" one)] =
  run [("a", respond "A" half); ("b", respond "B" one)] /\
  exists rest,
    ["a"; "b"] =
    (calls (run [("a", respond "A" half); ("b", respond "B" one);
                 ("c", respond "C" one)]) ++ rest)%list.
Proof.
  apply (C5_no_call_after_high_confidence
           [("a", respond "A" half)] [("c", respond "C" one)] "b"
           (respond "B" one) (PFloat (Fin 1))); reflexivity.
Defined.

(** ** Runs in which every call fails *)

Lemma for_models_all_failed (models : list (string * outcome)) (s : state) :
  (forall model_name o, In (model_name, o) models -> scored o = None) ->
  best_result (for_models models s) = best_result s /\
  highest_confidence (for_models models s) = highest_confidence s /\
  exists new,
    errors (for_models models s) = (errors s ++ new)%list /\
    Forall2 (fun mo e => exists reason, e = failure_message (fst mo) reason)
      models new /\
    (forall e, In (st_warning e) (screen s) \/ In e new ->
               In (st_warning e) (screen (for_models models s))).
Proof.
  revert s. induction models as [|[model_name o] rest IH]; intros s Hall.
  - repeat split. exists []. rewrite app_nil_r. repeat split.
    + constructor.
    + intros e [H|[]]. exact H.
  - assert (Ho : scored o = None) by (apply (Hall model_name); now left).
    rewrite for_models_cons. unfold early_exit. rewrite Ho.
    destruct (turn_failed model_name o s Ho) as [reason ->]. cbv zeta.
    set (msg := failure_message model_name reason).
    destruct (IH (show (st_warning msg)
                    (add_error msg
                       (add_call model_name (show (trying model_name) s)))))
      as (Hb & Hh & new & He & Hf & Hw).
    { intros m' o' Hin. apply (Hall m'). now right. }
    split; [exact Hb|]. split; [exact Hh|].
    exists (msg :: new). split; [|split].
    + rewrite He. cbn [errors show add_error add_call].
      now rewrite <- app_assoc.
    + constructor; [now exists reason|exact Hf].
    + intros e He'. apply Hw. cbn [screen show add_error add_call].
      destruct He' as [H|[H|H]].
      * left. apply in_or_app. left. apply in_or_app. now left.
      * left. subst e. apply in_or_app. right. now left.
      * now right.
Qed.

(** C3, as the code has it: when every call fails the function returns
    [None]; the error list holds one message per candidate, in order, each
    naming its model; every message has been shown as a warning; and for a
    list that is not empty the list of errors is not empty and the screen
    ends with the error that all models failed. The list stays in the
    function. *)
Theorem C3_all_failed (models : list (string * outcome))
  (Hall : forall model_name o, In (model_name, o) models -> scored o = None) :
  returned models = None /\
  Forall2 (fun mo e => exists reason, e = failure_message (fst mo) reason)
    models (errors (run models)) /\
  List.length (errors (run models)) = List.length models /\
  (forall e, In e (errors (run models)) ->
             In (st_warning e) (screen (run models))) /\
  (models <> [] ->
   errors (run models) <> [] /\
   exists shown,
     screen (run models) = (shown ++ [st_error all_failed_message])%list).
Proof.
  destruct (for_models_all_failed models initial Hall)
    as (Hb & _ & new & He & Hf & Hw).
  cbn [best_result errors initial app] in Hb, He.
  assert (Hlen : List.length new = List.length models)
    by (symmetry; eapply Forall2_length; exact Hf).
  unfold returned, run. rewrite Hb, He. cbn [not_result andb].
  destruct new as [|e new]; cbn [nonempty].
  - destruct models; [|discriminate]. rewrite Hb, He.
    split; [reflexivity|]. split; [assumption|]. split; [reflexivity|].
    split; [intros e []|]. intros Hne. now contradiction Hne.
  - cbn [best_result errors screen show]. rewrite Hb, He.
    split; [reflexivity|]. split; [assumption|]. split; [assumption|].
    split.
    + intros e' Hin. apply in_or_app. left. apply Hw. now right.
    + intros _. split; [discriminate|]. eexists. reflexivity.
Qed.

Lemma C3_witness :
  returned [("a", Raises "quota"); ("b", Responds (JArr []))] = None /\
  List.length (errors (run [("a", Raises "quota"); ("b", Responds (JArr []))]))
  = 2%nat.
Proof.
  destruct (C3_all_failed [("a", Raises "quota"); ("b", Responds (JArr []))])
    as (H1 & _ & H2 & _).
  - intros m o [[= <- <-]|[[= <- <-]|[]]]; reflexivity.
  - split; [exact H1|exact H2].
Defined.

(** C3 as stated fails: the value returned does not carry the error list.
    Two runs in which every model fails, for different reasons, return the
    same value. *)
Lemma C3_errors_not_returned :
  ~ exists carried : option dict -> list string,
      forall gemini,
        (forall model_name, scored (gemini model_name) = None) ->
        carried (enhanced_gemini_extraction gemini) =
        errors (run (candidates gemini)).
Proof.
  intros [carried H].
  assert (H1 := H (fun _ => Raises "quota") (fun _ => eq_refl)).
  assert (H2 := H (fun _ => Raises "timeout") (fun _ => eq_refl)).
  change (enhanced_gemini_extraction (fun _ => Raises "quota"))
    with (@None dict) in H1.
  change (enhanced_gemini_extraction (fun _ => Raises "timeout"))
    with (@None dict) in H2.
  rewrite H1 in H2. vm_compute in H2. discriminate H2.
Qed.

(** ** The best result *)

Lemma turn_scored_best (model_name : string) (d : dict) (c : pynum)
  (s : state) :
  confidence_of d = JNum c ->
  let s' := for_models [(model_name, Responds (JObj d))] s in
  best_result s' =
    (if num_gt c (highest_confidence s)
     then Some (dict_set "model_used" (JStr model_name) d)
     else best_result s) /\
  highest_confidence s' =
    (if num_gt c (highest_confidence s) then c else highest_confidence s) /\
  errors s' = errors s.
Proof.
  intros Hc. cbv zeta. rewrite (turn_scored _ _ _ _ Hc). unfold scored_state.
  destruct (num_gt c (highest_confidence s)), (num_gt c f_0_98);
    repeat split.
Qed.

Lemma turn_failed_best (model_name : string) (o : outcome) (s : state) :
  scored o = None ->
  let s' := for_models [(model_name, o)] s in
  best_result s' = best_result s /\
  highest_confidence s' = highest_confidence s.
Proof.
  intros Hs. destruct (turn_failed model_name o s Hs) as [reason ->].
  split; reflexivity.
Qed.

Lemma returned_for_models (models : list (string * outcome)) :
  returned models = best_result (for_models models initial).
Proof. unfold returned, run. destruct (_ && _); reflexivity. Qed.

(** C6: a response whose [confidence_score] is absent or null is compared as
    [0.0]: its call is made, logs no error, and its record, stamped with the
    model's name, becomes the result exactly when [0.0] is above the highest
    confidence so far, as it is on a first call. Whatever the confidence, the
    result is replaced exactly when the confidence is strictly above the
    highest so far, so a response whose confidence equals the highest so far
    leaves the result and the highest confidence as they were; of two
    responses with equal confidence the first is returned. *)
Theorem C6_default_confidence_and_ties (model_name : string) (d : dict)
  (s : state) :
  let s' := for_models [(model_name, Responds (JObj d))] s in
  ((dict_get "confidence_score" d = None \/
    dict_get "confidence_score" d = Some JNull) ->
   confidence_of d = JNum f_0_0 /\
   calls s' = (calls s ++ [model_name])%list /\
   errors s' = errors s /\
   best_result s' =
     (if num_gt f_0_0 (highest_confidence s)
      then Some (dict_set "model_used" (JStr model_name) d)
      else best_result s) /\
   highest_confidence s' =
     (if num_gt f_0_0 (highest_confidence s) then f_0_0
      else highest_confidence s) /\
   returned [(model_name, Responds (JObj d))] =
     Some (dict_set "model_used" (JStr model_name) d)) /\
  (forall c,
     confidence_of d = JNum c ->
     best_result s' =
       (if num_gt c (highest_confidence s)
        then Some (dict_set "model_used" (JStr model_name) d)
        else best_result s) /\
     highest_confidence s' =
       (if num_gt c (highest_confidence s) then c
        else highest_confidence s) /\
     (num_eq c (highest_confidence s) = true ->
      best_result s' = best_result s /\
      highest_confidence s' = highest_confidence s)) /\
  (forall first_name d0 c0 c,
     confidence_of d0 = JNum c0 -> confidence_of d = JNum c ->
     num_gt c0 f_neg_1_0 = true -> num_eq c c0 = true ->
     returned [(first_name, Responds (JObj d0));
               (model_name, Responds (JObj d))] =
       Some (dict_set "model_used" (JStr first_name) d0)).
Proof.
  cbv zeta. split; [|split].
  - intros Hd.
    assert (Hc : confidence_of d = JNum f_0_0)
      by (unfold confidence_of, dict_get_default;
          destruct Hd as [-> | ->]; reflexivity).
    destruct (turn_scored_best model_name d f_0_0 s Hc) as (Hb & Hh & He).
    split; [exact Hc|]. split; [apply turn_calls|].
    split; [exact He|]. split; [exact Hb|]. split; [exact Hh|].
    rewrite returned_for_models.
    destruct (turn_scored_best model_name d f_0_0 initial Hc) as (Hb0 & _).
    exact Hb0.
  - intros c Hc.
    destruct (turn_scored_best model_name d c s Hc) as (Hb & Hh & _).
    split; [exact Hb|]. split; [exact Hh|]. intros Heq.
    rewrite (num_eq_not_gt _ _ Heq) in Hb, Hh. now split.
  - intros first_name d0 c0 c Hc0 Hc Hgt Heq.
    rewrite returned_for_models, for_models_cons.
    destruct (turn_scored_best first_name d0 c0 initial Hc0) as (Hb & Hh & _).
    cbn [highest_confidence initial] in Hb, Hh. rewrite Hgt in Hb, Hh.
    destruct (early_exit (Responds (JObj d0))); [exact Hb|].
    destruct (turn_scored_best model_name d c
                (for_models [(first_name, Responds (JObj d0))] initial) Hc)
      as (Hb' & _).
    rewrite Hh, (num_eq_not_gt _ _ Heq) in Hb'. now rewrite Hb'.
Qed.

Lemma C6_witness :
  returned
    [("a", Responds (JObj [("name", JStr "A"); ("confidence_score", JNull)]))]
    = Some [("name", JStr "A"); ("confidence_score", JNull);
            ("model_used", JStr "a")] /\
  best_result
    (for_models [("b", respond "B" half)]
       (for_models [("a", respond "A" half)] initial)) =
  best_result (for_models [("a", respond "A" half)] initial) /\
  returned [("a", respond "A" half); ("b", respond "B" half)] =
    Some [("name", JStr "A"); ("confidence_score", half);
          ("model_used", JStr "a")].
Proof.
  split; [|split].
  - pose proof (C6_default_confidence_and_ties "a"
                  [("name", JStr "A"); ("confidence_score", JNull)] initial)
      as H.
    cbv zeta in H. destruct H as (H & _).
    destruct H as (_ & _ & _ & _ & _ & H); [right; reflexivity|exact H].
  - pose proof (C6_default_confidence_and_ties "b"
                  [("name", JStr "B"); ("confidence_score", half)]
                  (for_models [("a", respond "A" half)] initial)) as H.
    cbv zeta in H. destruct H as (_ & H & _).
    destruct (H (PFloat (Fin (1 # 2))) eq_refl) as (_ & _ & Ht).
    apply Ht. reflexivity.
  - pose proof (C6_default_confidence_and_ties "b"
                  [("name", JStr "B"); ("confidence_score", half)] initial)
      as H.
    cbv zeta in H. destruct H as (_ & _ & H).
    apply (H "a" [("name", JStr "A"); ("confidence_score", half)]
             (PFloat (Fin (1 # 2))) (PFloat (Fin (1 # 2)))); reflexivity.
Defined.

(** ** A result once some call is scored above the initial confidence *)

Lemma Qgtb_trans_098 (x : Q) :
  Qgtb x (2206763817411543 # 2251799813685248) = true -> Qgtb x (-1) = true.
Proof.
  unfold Qgtb. intros H. apply negb_true_iff in H. apply negb_true_iff.
  destruct (Qle_bool x (-1)) eqn:E; [|reflexivity].
  apply Qle_bool_iff in E.
  assert (Hle : (x <= 2206763817411543 # 2251799813685248)%Q).
  { eapply Qle_trans; [exact E|]. unfold Qle. cbn. lia. }
  apply Qle_bool_iff in Hle. congruence.
Qed.

Lemma high_above_initial (c : pynum) :
  num_gt c f_0_98 = true -> num_gt c f_neg_1_0 = true.
Proof.
  unfold num_gt, f_0_98, f_neg_1_0. cbn [num_value].
  destruct (num_value c); cbn [fl_gt]; try easy. apply Qgtb_trans_098.
Qed.

Lemma turn_stamped (model_name : string) (o : outcome) (s : state) :
  stamped s -> stamped (for_models [(model_name, o)] s).
Proof.
  intros Hs. unfold stamped in *. destruct (scored o) as [c|] eqn:Ho.
  - destruct (scored_inv _ _ Ho) as [d [-> Hc]].
    destruct (turn_scored_best model_name d c s Hc) as (Hb & Hh & _).
    rewrite Hb, Hh. destruct (num_gt c (highest_confidence s)).
    + exists model_name. apply dict_get_set_same.
    + exact Hs.
  - destruct (turn_failed_best model_name o s Ho) as (Hb & Hh).
    rewrite Hb, Hh. exact Hs.
Qed.

Lemma turn_keeps_result (model_name : string) (o : outcome) (s : state) :
  best_result s <> None ->
  best_result (for_models [(model_name, o)] s) <> None.
Proof.
  intros Hs. destruct (scored o) as [c|] eqn:Ho.
  - destruct (scored_inv _ _ Ho) as [d [-> Hc]].
    destruct (turn_scored_best model_name d c s Hc) as (Hb & _).
    rewrite Hb. destruct (num_gt c (highest_confidence s)); easy.
  - destruct (turn_failed_best model_name o s Ho) as (Hb & _). now rewrite Hb.
Qed.

Lemma turn_gives_result (model_name : string) (o : outcome) (c : pynum)
  (s : state) :
  stamped s -> scored o = Some c -> num_gt c f_neg_1_0 = true ->
  best_result (for_models [(model_name, o)] s) <> None.
Proof.
  intros Hs Ho Hgt. destruct (scored_inv _ _ Ho) as [d [-> Hc]].
  destruct (turn_scored_best model_name d c s Hc) as (Hb & _). rewrite Hb.
  unfold stamped in Hs. destruct (best_result s) as [r|] eqn:Hr.
  - destruct (num_gt c (highest_confidence s)); easy.
  - rewrite Hs, Hgt. easy.
Qed.

Lemma for_models_stamped (models : list (string * outcome)) (s : state) :
  stamped s -> stamped (for_models models s).
Proof.
  revert s. induction models as [|[model_name o] rest IH]; intros s Hs.
  - exact Hs.
  - rewrite for_models_cons. destruct (early_exit o).
    + now apply turn_stamped.
    + apply IH. now apply turn_stamped.
Qed.

Lemma for_models_keeps_result (models : list (string * outcome)) (s : state) :
  best_result s <> None -> best_result (for_models models s) <> None.
Proof.
  revert s. induction models as [|[model_name o] rest IH]; intros s Hs.
  - exact Hs.
  - rewrite for_models_cons. destruct (early_exit o).
    + now apply turn_keeps_result.
    + apply IH. now apply turn_keeps_result.
Qed.

Lemma for_models_gives_result (models : list (string * outcome)) (s : state)
  (model_name : string) (o : outcome) (c : pynum) :
  stamped s ->
  In (model_name, o) models -> scored o = Some c ->
  num_gt c f_neg_1_0 = true ->
  best_result (for_models models s) <> None.
Proof.
  revert s. induction models as [|[m' o'] rest IH]; intros s Hs Hin Ho Hgt.
  - destruct Hin.
  - rewrite for_models_cons. destruct (early_exit o') eqn:He.
    + unfold early_exit in He. destruct (scored o') as [c'|] eqn:Ho';
        [|discriminate].
      apply (turn_gives_result m' o' c' s Hs Ho').
      now apply high_above_initial.
    + destruct Hin as [[= -> ->]|Hin].
      * apply for_models_keeps_result.
        now apply (turn_gives_result model_name o c s).
      * apply (IH _ (turn_stamped m' o' s Hs) Hin Ho Hgt).
Qed.

(** C10, as the code has it: when some candidate's response is scored above
    the initial -1.0 (any confidence from 0.0 up, an absent or null one
    included), the function returns a record, and the record names a model. *)
Theorem C10_result_when_scored_above_initial
  (models : list (string * outcome)) (model_name : string) (o : outcome)
  (c : pynum)
  (Hin : In (model_name, o) models) (Hscored : scored o = Some c)
  (Habove : num_gt c f_neg_1_0 = true) :
  exists r used,
    returned models = Some r /\ dict_get "model_used" r = Some (JStr used).
Proof.
  rewrite returned_for_models.
  assert (Hinit : stamped initial) by reflexivity.
  pose proof (for_models_stamped models initial Hinit) as Hst.
  pose proof (for_models_gives_result models initial model_name o c
                Hinit Hin Hscored Habove) as Hres.
  unfold stamped in Hst.
  destruct (best_result (for_models models initial)) as [r|]; [|easy].
  destruct Hst as [used Hused]. now exists r, used.
Qed.

Lemma C10_witness :
  exists r used,
    returned [("a", Raises "quota");
              ("b", Responds (JObj [("name", JStr "B")]))] = Some r /\
    dict_get "model_used" r = Some (JStr used).
Proof.
  apply (C10_result_when_scored_above_initial _ "b"
           (Responds (JObj [("name", JStr "B")])) f_0_0).
  - right. left. reflexivity.
  - reflexivity.
  - reflexivity.
Defined.

(** C10 as stated fails: a response that parses, with a confidence of -2.0,
    is scored and is no failure, yet nothing is returned. *)
Lemma C10_scored_below_initial :
  scored (respond "A" (float_lit (-2))) = Some (PFloat (Fin (-2))) /\
  errors (run (candidates (backend (respond "A" (float_lit (-2)))
                             (respond "A" (float_lit (-2)))))) = [] /\
  enhanced_gemini_extraction
    (backend (respond "A" (float_lit (-2))) (respond "A" (float_lit (-2)))) =
    None.
Proof. repeat split. Qed.

(** ** Which result is returned *)

Lemma consulted_inside (models l1 l2 : list (string * outcome)) :
  consulted models = (l1 ++ l2)%list -> l2 <> [] ->
  Forall (fun mo => early_exit (snd mo) = false) l1.
Proof.
  revert l1. induction models as [|[model_name o] rest IH]; intros l1 H Hne.
  - destruct l1; [constructor|discriminate].
  - cbn [consulted] in H. destruct (early_exit o) eqn:He.
    + destruct l1 as [|x l1]; [constructor|].
      injection H as _ H. destruct l1; [|discriminate].
      cbn in H. now subst l2.
    + destruct l1 as [|x l1]; [constructor|].
      injection H as <- H. constructor; [exact He|]. now apply IH.
Qed.

Lemma for_models_app (l1 l2 : list (string * outcome)) (s : state) :
  Forall (fun mo => early_exit (snd mo) = false) l1 ->
  for_models (l1 ++ l2) s = for_models l2 (for_models l1 s).
Proof.
  revert s. induction l1 as [|[model_name o] l1 IH]; intros s H.
  - reflexivity.
  - inversion H as [|x l Ho Hl]; subst. cbn [snd] in Ho.
    cbn [app].
    rewrite (for_models_cons model_name o (l1 ++ l2)),
      (for_models_cons model_name o l1), Ho.
    now apply IH.
Qed.

(** The highest confidence is the initial one or one that was scored. *)
Lemma highest_from (models : list (string * outcome)) (s : state) :
  highest_confidence (for_models models s) = highest_confidence s \/
  exists model_name o,
    In (model_name, o) models /\
    scored o = Some (highest_confidence (for_models models s)).
Proof.
  revert s. induction models as [|[model_name o] rest IH]; intros s.
  - now left.
  - assert (Hturn :
      highest_confidence (for_models [(model_name, o)] s) =
        highest_confidence s \/
      scored o = Some (highest_confidence (for_models [(model_name, o)] s))).
    { destruct (scored o) as [c|] eqn:Ho.
      - destruct (scored_inv _ _ Ho) as [d [-> Hc]].
        destruct (turn_scored_best model_name d c s Hc) as (_ & Hh & _).
        rewrite Hh. destruct (num_gt c (highest_confidence s));
          [now right|now left].
      - left. now apply turn_failed_best. }
    rewrite for_models_cons. destruct (early_exit o).
    + destruct Hturn as [H|H]; [now left|].
      right. exists model_name, o. split; [now left|exact H].
    + destruct (IH (for_models [(model_name, o)] s))
        as [H|(m' & o' & Hin & H)].
      * rewrite H. destruct Hturn as [H'|H']; [now left|].
        right. exists model_name, o. split; [now left|exact H'].
      * right. exists m', o'. split; [now right|exact H].
Qed.

(** Calls that are not scored above the highest confidence change neither
    the result nor the highest confidence. *)
Lemma never_beaten (models : list (string * outcome)) (s : state) :
  (forall model_name o c,
     In (model_name, o) models -> scored o = Some c ->
     num_gt c (highest_confidence s) = false) ->
  best_result (for_models models s) = best_result s /\
  highest_confidence (for_models models s) = highest_confidence s.
Proof.
  revert s. induction models as [|[model_name o] rest IH]; intros s H.
  - now split.
  - assert (Hturn :
      best_result (for_models [(model_name, o)] s) = best_result s /\
      highest_confidence (for_models [(model_name, o)] s) =
        highest_confidence s).
    { destruct (scored o) as [c|] eqn:Ho.
      - destruct (scored_inv _ _ Ho) as [d [-> Hc]].
        destruct (turn_scored_best model_name d c s Hc) as (Hb & Hh & _).
        rewrite Hb, Hh, (H model_name _ c (or_introl eq_refl) Ho).
        now split.
      - now apply turn_failed_best. }
    rewrite for_models_cons. destruct (early_exit o); [exact Hturn|].
    destruct Hturn as [Hb Hh].
    destruct (IH (for_models [(model_name, o)] s)) as [Hb' Hh'].
    + intros m' o' c' Hin Ho'. rewrite Hh. apply (H m' o' c'); [now right|].
      exact Ho'.
    + rewrite Hb', Hh'. now split.
Qed.

(** C1, as the code has it: among the candidates consulted (those up to and
    including the first one scored above 0.98), take one whose confidence is
    above the initial -1.0, strictly above that of every scored candidate
    before it, and not exceeded by any scored candidate after it. The record
    returned is that candidate's response with [model_used] set to its
    name. *)
Theorem C1_model_used_is_first_maximum
  (models pre post : list (string * outcome)) (model_name : string)
  (d : dict) (c : pynum)
  (Hconsulted :
     consulted models = (pre ++ (model_name, Responds (JObj d)) :: post)%list)
  (Hscored : confidence_of d = JNum c)
  (Habove : num_gt c f_neg_1_0 = true)
  (Hearlier : forall m' o' c',
     In (m', o') pre -> scored o' = Some c' -> num_gt c c' = true)
  (Hlater : forall m' o' c',
     In (m', o') post -> scored o' = Some c' -> num_gt c' c = false) :
  returned models = Some (dict_set "model_used" (JStr model_name) d) /\
  dict_get "model_used" (dict_set "model_used" (JStr model_name) d) =
    Some (JStr model_name).
Proof.
  split; [|apply dict_get_set_same].
  rewrite returned_for_models, for_models_consulted, Hconsulted.
  rewrite for_models_app
    by (apply (consulted_inside models _ _ Hconsulted); discriminate).
  set (s := for_models pre initial).
  assert (Hgt : num_gt c (highest_confidence s) = true).
  { destruct (highest_from pre initial) as [H|(m' & o' & Hin & H)];
      fold s in H.
    - now rewrite H.
    - now apply (Hearlier m' o'). }
  destruct (turn_scored_best model_name d c s Hscored) as (Hb & Hh & _).
  rewrite Hgt in Hb, Hh.
  rewrite for_models_cons. destruct (early_exit _); [exact Hb|].
  destruct (never_beaten post
              (for_models [(model_name, Responds (JObj d))] s)) as [Hb' _].
  - intros m' o' c' Hin Ho'. rewrite Hh. now apply (Hlater m' o').
  - now rewrite Hb'.
Qed.

Lemma C1_witness :
  returned [("a", respond "A" half); ("b", Raises "quota");
            ("c", respond "C" one); ("d", respond "D" one)] =
    Some (dict_set "model_used" (JStr "c")
            [("name", JStr "C"); ("confidence_score", one)]) /\
  dict_get "model_used"
    (dict_set "model_used" (JStr "c")
       [("name", JStr "C"); ("confidence_score", one)]) = Some (JStr "c").
Proof.
  apply (C1_model_used_is_first_maximum
           [("a", respond "A" half); ("b", Raises "quota");
            ("c", respond "C" one); ("d", respond "D" one)]
           [("a", respond "A" half); ("b", Raises "quota")] []
           "c" _ (PFloat (Fin 1))).
  - reflexivity.
  - reflexivity.
  - reflexivity.
  - intros m' o' c' [[= <- <-]|[[= <- <-]|[]]] [= <-]; reflexivity.
  - intros m' o' c' [].
Defined.

(** C1 as stated fails: the first model is scored 127/128, which is above
    0.98, so the second, whose response would be scored 1.0, is never
    called, and the record returned names the first. *)
Lemma C1_early_exit_hides_higher_confidence :
  scored (respond "A" nearly_one) = Some (PFloat (Fin (127 # 128))) /\
  scored (respond "B" one) = Some (PFloat (Fin 1)) /\
  num_gt (PFloat (Fin 1)) (PFloat (Fin (127 # 128))) = true /\
  enhanced_gemini_extraction
    (backend (respond "A" nearly_one) (respond "B" one)) =
    Some [("name", JStr "A"); ("confidence_score", nearly_one);
          ("model_used", JStr "gemini-1.5-pro-latest")] /\
  calls (run (candidates (backend (respond "A" nearly_one) (respond "B" one))))
    = ["gemini-1.5-pro-latest"].
Proof. repeat split. Qed.

(** The example of the specification: "fast" answers with confidence 0.6,
    then "pro" with 0.9; both are called and the result is that of "pro". *)
Example fast_then_pro :
  run [("fast", Responds (JObj [("A", JStr "x"); ("confidence_score", f_0_6)]));
       ("pro", Responds (JObj [("A", JStr "x"); ("B", JStr "y");
                               ("confidence_score", f_0_9)]))] =
  mkState
    (Some [("A", JStr "x"); ("B", JStr "y"); ("confidence_score", f_0_9);
           ("model_used", JStr "pro")])
    (PFloat (Fin (8106479329266893 # 9007199254740992)))
    [] ["fast"; "pro"] [trying "fast"; trying "pro"].
Proof. reflexivity. Qed.

(** A response that is no dict, and one whose confidence is a string, end in
    the [except] block like a call that raises. *)
Example failures_of_three_kinds :
  errors (run [("a", Raises "quota");
               ("b", Responds (JArr []));
               ("c", respond "C" (JStr "high"))]) =
  [ "Model `a` failed: quota";
    "Model `b` failed: 'list' object has no attribute 'get'";
    "Model `c` failed: '>' not supported between instances of 'str' and 'float'" ].
Proof. reflexivity. Qed.

End Loop_facts.

(** * Properties of the store *)

Module Store_facts.
Import Store.

(** ** Rows and columns *)

Lemma EXCEL_COLUMNS_NoDup : NoDup EXCEL_COLUMNS.
Proof.
  unfold EXCEL_COLUMNS.
  repeat (constructor; [cbn; intuition discriminate|]). constructor.
Qed.

Lemma has_column_In (col : string) (df : DataFrame) :
  has_column col df = true <-> In col (columns df).
Proof.
  unfold has_column. rewrite existsb_exists. split.
  - intros (x & Hin & Heq). apply String.eqb_eq in Heq. now subst.
  - intros Hin. exists col. split; [exact Hin|apply String.eqb_refl].
Qed.

Lemma row_get_record (d : dict) (col : string) :
  row_get (dict_keys d) (dict_values d) col = dict_get col d.
Proof.
  induction d as [|[k v] d IH]; cbn; [reflexivity|].
  destruct (String.eqb col k); [reflexivity|exact IH].
Qed.

Lemma has_column_record (d : dict) (col : string) :
  has_column col (frame_of_record d) = dict_mem col d.
Proof.
  unfold has_column, dict_mem, frame_of_record. cbn [columns].
  induction d as [|[k v] d IH]; cbn; [reflexivity|].
  destruct (String.eqb col k); [reflexivity|exact IH].
Qed.

Lemma row_get_snoc (cols : list string) (row : list json) (col' : string)
  (v : json) (col : string) :
  List.length row = List.length cols ->
  row_get (cols ++ [col']) (row ++ [v]) col =
    match row_get cols row col with
    | Some x => Some x
    | None => if String.eqb col col' then Some v else None
    end.
Proof.
  revert row. induction cols as [|k cols IH]; intros [|x row] Hlen;
    try discriminate; cbn.
  - reflexivity.
  - destruct (String.eqb col k); [reflexivity|]. apply IH. now injection Hlen.
Qed.

Lemma row_get_has (cols : list string) (row : list json) (col : string) :
  List.length row = List.length cols ->
  existsb (String.eqb col) cols = false -> row_get cols row col = None.
Proof.
  revert row. induction cols as [|k cols IH]; intros [|x row] Hlen H;
    try discriminate; cbn in *; [reflexivity|].
  destruct (String.eqb col k); [discriminate|]. apply IH; [|exact H].
  now injection Hlen.
Qed.

Lemma reindex_same (cols : list string) (row : list json) :
  NoDup cols -> List.length row = List.length cols ->
  reindex cols cols row = row.
Proof.
  intros Hnd. revert row. induction Hnd as [|k cols Hk Hnd IH];
    intros [|x row] Hlen; try discriminate; [reflexivity|].
  unfold reindex. cbn [map row_get]. rewrite String.eqb_refl. f_equal.
  transitivity (reindex cols cols row); [|apply IH; now injection Hlen].
  apply map_ext_in. intros col Hin. cbn [row_get].
  destruct (String.eqb col k) eqn:E; [|reflexivity].
  apply String.eqb_eq in E. subst. contradiction.
Qed.

(** ** The new record, laid out under the schema *)

Lemma holds_record (d : dict) : holds d (frame_of_record d).
Proof.
  exists (dict_values d). split; [reflexivity|]. split; [|split].
  - cbn. unfold dict_values, dict_keys. now rewrite !length_map.
  - intros col H. now rewrite has_column_record.
  - intros col H. cbn [columns frame_of_record]. rewrite row_get_record.
    rewrite has_column_record in H. unfold dict_mem in H.
    unfold dict_get_default. destruct (dict_get col d); [reflexivity|].
    discriminate.
Qed.

Lemma has_column_set_column (col x : string) (v : json) (nr : DataFrame) :
  has_column x (set_column col v nr) =
  has_column x nr || (negb (has_column col nr) && String.eqb x col).
Proof.
  unfold set_column. destruct (has_column col nr) eqn:E.
  - cbn. now rewrite orb_false_r.
  - unfold has_column. cbn [columns]. rewrite existsb_app. cbn.
    now rewrite orb_false_r.
Qed.

Lemma holds_set_column (d : dict) (nr : DataFrame) (col : string) :
  holds d nr -> has_column col nr = false ->
  holds d (set_column col JNull nr).
Proof.
  intros (row & Hrows & Hlen & Hmem & Hget) Hno.
  exists (row ++ [JNull])%list.
  assert (Hcols : columns (set_column col JNull nr) =
                  (columns nr ++ [col])%list)
    by (unfold set_column; now rewrite Hno).
  repeat split.
  - unfold set_column. rewrite Hno. cbn [rows]. now rewrite Hrows.
  - rewrite Hcols, !length_app, Hlen. reflexivity.
  - intros x Hx. rewrite has_column_set_column, (Hmem x Hx). reflexivity.
  - intros x Hx. rewrite Hcols, (row_get_snoc _ _ _ _ _ Hlen).
    rewrite has_column_set_column, Hno in Hx. cbn [negb andb] in Hx.
    destruct (has_column x nr) eqn:Ex.
    + now rewrite (Hget x Ex).
    + cbn [orb] in Hx. rewrite (row_get_has _ _ _ Hlen Ex), Hx.
      apply String.eqb_eq in Hx. subst x.
      unfold dict_get_default. specialize (Hmem col). unfold dict_mem in Hmem.
      destruct (dict_get col d); [|reflexivity].
      rewrite Hmem in Hno by reflexivity. discriminate.
Qed.

Lemma ensure_columns_cons (col : string) (cols : list string)
  (nr : DataFrame) :
  ensure_columns (col :: cols) nr =
  ensure_columns cols
    (if negb (has_column col nr) then set_column col JNull nr else nr).
Proof. reflexivity. Qed.

Lemma ensure_columns_keeps (cols : list string) (nr : DataFrame) (x : string) :
  has_column x nr = true -> has_column x (ensure_columns cols nr) = true.
Proof.
  revert nr. induction cols as [|col cols IH]; intros nr H; [exact H|].
  rewrite ensure_columns_cons. apply IH.
  destruct (has_column col nr); cbn [negb]; [exact H|].
  rewrite has_column_set_column, H. reflexivity.
Qed.

Lemma ensure_columns_holds (d : dict) (cols : list string) (nr : DataFrame) :
  holds d nr ->
  holds d (ensure_columns cols nr) /\
  (forall col, In col cols ->
               has_column col (ensure_columns cols nr) = true).
Proof.
  revert nr. induction cols as [|col cols IH]; intros nr H.
  - split; [exact H|]. intros col [].
  - rewrite ensure_columns_cons.
    destruct (has_column col nr) eqn:E; cbn [negb].
    + destruct (IH nr H) as [H1 H2]. split; [exact H1|].
      intros x [<-|Hx]; [|now apply H2]. now apply ensure_columns_keeps.
    + destruct (IH _ (holds_set_column d nr col H E)) as [H1 H2].
      split; [exact H1|].
      intros x [<-|Hx]; [|now apply H2]. apply ensure_columns_keeps.
      rewrite has_column_set_column, E, String.eqb_refl. reflexivity.
Qed.

(** The record is laid out under the schema: one cell per schema column, the
    value under that key or null, and nothing else. *)
Lemma new_record_schema (data_dict : dict) :
  select EXCEL_COLUMNS
    (ensure_columns EXCEL_COLUMNS (frame_of_record data_dict)) =
  inr (mkDF EXCEL_COLUMNS [schema_row data_dict]).
Proof.
  destruct (ensure_columns_holds data_dict EXCEL_COLUMNS _
              (holds_record data_dict))
    as [(row & Hrows & Hlen & Hmem & Hget) Hall].
  set (nr := ensure_columns EXCEL_COLUMNS (frame_of_record data_dict)) in *.
  unfold select.
  destruct (find _ EXCEL_COLUMNS) as [col|] eqn:Hf.
  - apply find_some in Hf. destruct Hf as [Hin Hneg].
    rewrite (Hall col Hin) in Hneg. discriminate.
  - rewrite Hrows. cbn [map]. do 3 f_equal. unfold reindex, schema_row.
    apply map_ext_in. intros col Hin. now rewrite (Hget col (Hall col Hin)).
Qed.

(** ** Appending under the same columns *)

Lemma filter_none {A} (f : A -> bool) (l : list A) :
  (forall x, In x l -> f x = false) -> filter f l = [].
Proof.
  induction l as [|a l IH]; intros H; [reflexivity|]. cbn.
  rewrite (H a) by now left. apply IH. intros x Hx. apply H. now right.
Qed.

Lemma map_reindex_same (cols : list string) (rs : list (list json)) :
  NoDup cols ->
  Forall (fun r => List.length r = List.length cols) rs ->
  map (reindex cols cols) rs = rs.
Proof.
  intros Hnd H. induction H as [|r rs Hr Hrs IH]; [reflexivity|].
  cbn. now rewrite (reindex_same cols r Hnd Hr), IH.
Qed.

Lemma concat_same_columns (a b : DataFrame) (cols : list string) :
  NoDup cols -> columns a = cols -> columns b = cols ->
  Forall (fun r => List.length r = List.length cols) (rows a) ->
  Forall (fun r => List.length r = List.length cols) (rows b) ->
  concat a b = mkDF cols (rows a ++ rows b).
Proof.
  intros Hnd Ha Hb Hra Hrb. unfold concat. rewrite Ha, Hb.
  rewrite filter_none.
  - rewrite app_nil_r, !map_reindex_same by assumption. reflexivity.
  - intros x Hx. apply negb_false_iff, has_column_In. now rewrite Ha.
Qed.

Lemma schema_row_length (data_dict : dict) :
  List.length (schema_row data_dict) = List.length EXCEL_COLUMNS.
Proof. unfold schema_row. apply length_map. Qed.

Lemma row_get_map (f : string -> json) (cols : list string) (col : string) :
  In col cols -> row_get cols (map f cols) col = Some (f col).
Proof.
  induction cols as [|k cols IH]; intros Hin; [destruct Hin|]. cbn.
  destruct (String.eqb col k) eqn:E.
  - apply String.eqb_eq in E. now subst.
  - apply IH. destruct Hin as [->|Hin]; [|exact Hin].
    now rewrite String.eqb_refl in E.
Qed.

(** ** Reading and writing the file *)

Lemma to_excel_path_eq (df : DataFrame) (w : world) :
  to_excel_path df w =
    let w1 := mkWorld (disk w) (tl (faults w)) (screen w) in
    match hd NoFault (faults w) with
    | NoFault => (set_disk (Stored (to_excel df "Sheet1" false)) w1, inr tt)
    | Refused msg => (w1, inl (OSError msg))
    | Torn msg remains => (set_disk (Corrupt remains) w1, inl (OSError msg))
    end.
Proof.
  unfold to_excel_path, bind, next_fault. cbv zeta.
  destruct (hd NoFault (faults w)); reflexivity.
Qed.

Section Store_with_reader.
Context {reader : Reader}.

Lemma load_excel_data_eq (w : world) :
  load_excel_data w =
    let w1 := mkWorld (disk w) (tl (faults w)) (screen w) in
    match disk w with
    | Absent =>
        match hd NoFault (faults w) with
        | NoFault =>
            (show (st_success
                     ("✅ Created new database file: " ++ EXCEL_FILE_PATH))
               (set_disk (Stored fresh_workbook) w1),
             inr (empty_frame EXCEL_COLUMNS))
        | Refused msg => (w1, inl (OSError msg))
        | Torn msg remains =>
            (set_disk (Corrupt remains) w1, inl (OSError msg))
        end
    | Stored wb =>
        match hd NoFault (faults w) with
        | NoFault => (w1, inr (read_excel wb))
        | Refused msg | Torn msg _ => (w1, inl (OSError msg))
        end
    | Corrupt why =>
        match hd NoFault (faults w) with
        | NoFault => (w1, inl (BadFile why))
        | Refused msg | Torn msg _ => (w1, inl (OSError msg))
        end
    end.
Proof.
  unfold load_excel_data, create_excel_file, read_excel_path, to_excel_path,
    bind, path_exists, gets, next_fault, modify, ret, raise.
  destruct w as [[|wb|why] fs sc]; cbn [disk faults screen negb];
    destruct (hd NoFault fs); reflexivity.
Qed.

Lemma save_body_eq (data_dict : dict) (w : world) :
  save_body data_dict w =
    match load_excel_data w with
    | (w1, inl e) => (w1, inl e)
    | (w1, inr df) =>
        match to_excel_path
                (concat df (mkDF EXCEL_COLUMNS [schema_row data_dict])) w1 with
        | (w2, inl e) => (w2, inl e)
        | (w2, inr _) =>
            (show (st_success
                     ("✅ Data successfully saved to " ++ EXCEL_FILE_PATH)) w2,
             inr true)
        end
    end.
Proof.
  unfold save_body, bind. destruct (load_excel_data w) as [w1 [e|df]];
    [reflexivity|].
  rewrite new_record_schema. cbn [lift ret].
  destruct (to_excel_path _ w1) as [w2 [e|u]]; reflexivity.
Qed.

(** ** Saving *)

(** Under the schema's columns the rows loaded are laid out again under the
    same columns and the new row is put after them. *)
Lemma concat_schema (df : DataFrame) (data_dict : dict) :
  columns df = EXCEL_COLUMNS ->
  concat df (mkDF EXCEL_COLUMNS [schema_row data_dict]) =
  mkDF EXCEL_COLUMNS
    (map (reindex EXCEL_COLUMNS EXCEL_COLUMNS) (rows df) ++
     [schema_row data_dict])%list.
Proof.
  intros Hc. unfold concat. rewrite Hc. cbn [columns rows map].
  rewrite filter_none.
  - rewrite app_nil_r.
    now rewrite (reindex_same EXCEL_COLUMNS _ EXCEL_COLUMNS_NoDup
                   (schema_row_length data_dict)).
  - intros x Hx. apply negb_false_iff, has_column_In. now rewrite Hc.
Qed.

Lemma save_success (data_dict : dict) (w w' : world) :
  store_ok (disk w) -> save_to_excel data_dict w = (w', true) ->
  disk w' =
    Stored (mkWB "Sheet1" EXCEL_COLUMNS
              (map (reindex EXCEL_COLUMNS EXCEL_COLUMNS)
                 (loaded_rows (disk w)) ++ [schema_row data_dict])%list).
Proof.
  unfold save_to_excel. rewrite save_body_eq, load_excel_data_eq. cbv zeta.
  destruct w as [[|wb|why] fs sc];
    cbn [disk faults screen store_ok loaded_rows];
    intros Hok; destruct (hd NoFault fs);
    try (intros [= _ H]; discriminate H); try discriminate;
    rewrite to_excel_path_eq; cbv zeta;
    cbn [disk faults screen show set_disk];
    destruct (hd NoFault (tl fs)); try discriminate;
    intros H; apply (f_equal fst) in H; cbn [fst] in H; subst w';
    cbn [disk show set_disk].
  - rewrite (concat_schema (empty_frame EXCEL_COLUMNS) data_dict eq_refl).
    reflexivity.
  - destruct Hok as [Hh Hb].
    rewrite (concat_schema (read_excel wb) data_dict).
    + reflexivity.
    + cbn [read_excel columns]. rewrite Hh. reflexivity.
Qed.

Lemma save_no_fault (data_dict : dict) (w : world) :
  (forall why, disk w <> Corrupt why) ->
  hd NoFault (faults w) = NoFault ->
  hd NoFault (tl (faults w)) = NoFault ->
  snd (save_to_excel data_dict w) = true.
Proof.
  unfold save_to_excel. rewrite save_body_eq, load_excel_data_eq. cbv zeta.
  destruct w as [[|wb|why] fs sc]; cbn [disk faults screen];
    intros Hd H1 H2; try (now contradiction (Hd why)); rewrite H1;
    rewrite to_excel_path_eq; cbv zeta; cbn [disk faults screen show set_disk];
    rewrite H2; reflexivity.
Qed.

(** What a failed save leaves behind. *)
Lemma save_failure (data_dict : dict) (w w' : world) :
  save_to_excel data_dict w = (w', false) ->
  (exists shown e,
     screen w' =
       (shown ++ [st_error ("❌ Error saving to Excel: " ++ str_exn e)])%list) /\
  (disk w' = disk w \/
   (disk w = Absent /\ disk w' = Stored fresh_workbook) \/
   ((exists remains, disk w' = Corrupt remains) /\
    (is_torn (hd NoFault (faults w)) = true \/
     is_torn (hd NoFault (tl (faults w))) = true))).
Proof.
  unfold save_to_excel. rewrite save_body_eq, load_excel_data_eq. cbv zeta.
  destruct w as [[|wb|why] fs sc]; cbn [disk faults screen];
    destruct (hd NoFault fs);
    try rewrite to_excel_path_eq; cbv zeta;
    cbn [disk faults screen show set_disk];
    try destruct (hd NoFault (tl fs)); try discriminate;
    intros H; apply (f_equal fst) in H; cbn [fst] in H; subst w';
    cbn [disk faults screen show set_disk is_torn];
    (split; [eexists; eexists; reflexivity|]); eauto 7.
Qed.

(** ** The store keeps the schema's layout *)

Lemma fresh_workbook_schema : schema_workbook fresh_workbook.
Proof. split; [reflexivity|constructor]. Qed.

Lemma load_store_ok (w w' : world) (r : exn + DataFrame) :
  store_ok (disk w) -> load_excel_data w = (w', r) -> store_ok (disk w').
Proof.
  rewrite load_excel_data_eq. cbv zeta.
  destruct w as [[|wb|why] fs sc]; cbn [disk faults screen]; intros Hok;
    destruct (hd NoFault fs); intros H; apply (f_equal fst) in H;
    cbn [fst] in H; subst w'; cbn [disk show set_disk store_ok];
    auto using fresh_workbook_schema.
Qed.

Lemma download_excel_file_eq (w : world) :
  download_excel_file w =
    match load_excel_data w with
    | (w1, inr df) => (w1, Some (to_excel df "KYC_Data" false))
    | (w1, inl e) =>
        (show (st_error ("Error preparing Excel download: " ++ str_exn e)) w1,
         None)
    end.
Proof.
  unfold download_excel_file, download_body, bind, ret.
  destruct (load_excel_data w) as [w1 [e|df]]; reflexivity.
Qed.

Lemma download_store_ok (w w' : world) (r : option workbook) :
  store_ok (disk w) -> download_excel_file w = (w', r) -> store_ok (disk w').
Proof.
  rewrite download_excel_file_eq. intros Hok.
  destruct (load_excel_data w) as [w1 [e|df]] eqn:Hl; intros H;
    apply (f_equal fst) in H; cbn [fst] in H; subst w'; cbn [disk show];
    exact (load_store_ok w w1 _ Hok Hl).
Qed.

Lemma save_store_ok (data_dict : dict) (w w' : world) (b : bool) :
  store_ok (disk w) -> save_to_excel data_dict w = (w', b) ->
  store_ok (disk w').
Proof.
  intros Hok H. destruct b.
  - rewrite (save_success data_dict w w' Hok H).
    split; [reflexivity|]. cbn [body]. apply Forall_app. split.
    + apply Forall_forall. intros r Hr. apply in_map_iff in Hr.
      destruct Hr as (r0 & <- & _). unfold reindex. apply length_map.
    + constructor; [apply schema_row_length|constructor].
  - destruct (save_failure data_dict w w' H)
      as (_ & [->|[[_ ->]|[[remains ->] _]]]).
    + exact Hok.
    + apply fresh_workbook_schema.
    + exact I.
Qed.

Lemma reachable_store_ok (f : file_state) : reachable f -> store_ok f.
Proof.
  induction 1 as [|w w' r _ IH H|w w' r _ IH H|d w w' r _ IH H].
  - exact I.
  - exact (load_store_ok w w' r IH H).
  - exact (download_store_ok w w' r IH H).
  - exact (save_store_ok d w w' r IH H).
Qed.

End Store_with_reader.

(** ** A record with nothing in it *)


(** ** The keys of the edited record *)

Lemma dict_keys_set (k k' : string) (v : json) (d : dict) :
  In k (dict_keys (dict_set k' v d)) -> k = k' \/ In k (dict_keys d).
Proof.
  induction d as [|[k0 v0] d IH]; cbn.
  - intros [<-|[]]. now left.
  - destruct (String.eqb k' k0); cbn.
    + intros [<-|H]; right; [now left|now right].
    + intros [<-|H]; [right; now left|].
      destruct (IH H) as [->|H']; [now left|right; now right].
Qed.

Lemma create_form_section_keys (text_input : string -> json -> string)
  (data_to_edit : dict) (fields : list string) (temp : dict) (k : string) :
  In k (dict_keys (create_form_section text_input data_to_edit fields temp)) ->
  In k fields \/ In k (dict_keys temp).
Proof.
  unfold create_form_section. revert temp.
  induction fields as [|f fields IH]; intros temp; cbn [fold_left].
  - now right.
  - intros H. destruct (IH _ H) as [H'|H']; [left; now right|].
    destruct (dict_mem f data_to_edit); [|now right].
    destruct (dict_keys_set _ _ _ _ H') as [->|H'']; [left; now left|now right].
Qed.

Lemma edit_form_keys (text_input : string -> json -> string)
  (data_to_edit : dict) (k : string) :
  In k (dict_keys (edit_form text_input data_to_edit)) ->
  In k (personal_info ++ employment_info ++ address_info ++ bank_info ++
        nominee_info ++ ["document_title"; "society_name"])%list.
Proof.
  unfold edit_form. cbv zeta. intros H.
  repeat rewrite in_app_iff.
  destruct (dict_keys_set _ _ _ _ H) as [->|H1]; [cbn; tauto|].
  destruct (dict_keys_set _ _ _ _ H1) as [->|H2]; [cbn; tauto|].
  destruct (create_form_section_keys _ _ _ _ _ H2) as [?|H3]; [tauto|].
  destruct (create_form_section_keys _ _ _ _ _ H3) as [?|H4]; [tauto|].
  destruct (create_form_section_keys _ _ _ _ _ H4) as [?|H5]; [tauto|].
  destruct (create_form_section_keys _ _ _ _ _ H5) as [?|H6]; [tauto|].
  destruct (create_form_section_keys _ _ _ _ _ H6) as [?|[]]. tauto.
Qed.

Lemma edit_form_drops_model_used (text_input : string -> json -> string)
  (data_to_edit : dict) :
  ~ In "model_used" (dict_keys (edit_form text_input data_to_edit)).
Proof.
  intros H. apply edit_form_keys in H. cbn in H. intuition discriminate.
Qed.

(** C4, as the code has it: from a store the program has reached, the file a
    save leaves and the bytes [download_excel_file] returns have the
    schema's columns in the schema's order. The single-record download has
    the keys of the record it is given, in their order; for the record the
    edit form leaves these are never the schema's columns, since
    [model_used] is not among them. *)
Theorem C4_columns_of_artifacts {reader : Reader} (w : world)
  (Hreach : reachable (disk w)) :
  (forall data_dict w' b wb,
     save_to_excel data_dict w = (w', b) -> disk w' = Stored wb ->
     header wb = EXCEL_COLUMNS) /\
  (forall w' bytes,
     download_excel_file w = (w', Some bytes) ->
     header bytes = EXCEL_COLUMNS) /\
  (forall edited_data,
     header (download_record edited_data) = dict_keys edited_data) /\
  (forall text_input data_to_edit,
     header (download_record (edit_form text_input data_to_edit)) <>
     EXCEL_COLUMNS).
Proof.
  pose proof (reachable_store_ok _ Hreach) as Hok.
  split; [|split; [|split]].
  - intros data_dict w' b wb H Hd.
    pose proof (save_store_ok data_dict w w' b Hok H) as Hok'.
    rewrite Hd in Hok'. apply Hok'.
  - intros w' bytes. rewrite download_excel_file_eq, load_excel_data_eq.
    cbv zeta.
    destruct w as [[|wb|why] fs sc]; cbn [disk faults screen] in *;
      destruct (hd NoFault fs); try discriminate; intros [= _ <-].
    + reflexivity.
    + cbn [to_excel header read_excel columns]. destruct Hok as [-> _].
      reflexivity.
  - reflexivity.
  - intros text_input data_to_edit H.
    apply (edit_form_drops_model_used text_input data_to_edit).
    change (In "model_used"
              (header (download_record (edit_form text_input data_to_edit)))).
    rewrite H. cbn. tauto.
Qed.

Lemma C4_witness :
  reachable (reader := as_written) Absent /\
  forall w' bytes,
    download_excel_file (reader := as_written) (mkWorld Absent [] []) =
      (w', Some bytes) ->
    header bytes = EXCEL_COLUMNS.
Proof.
  split; [apply reach_fresh|].
  apply (C4_columns_of_artifacts (mkWorld Absent [] []) reach_fresh).
Defined.

(** C4 as stated fails for the single-record download: for an extraction
    with every key of the schema, left unedited, its columns are the form's
    fields in form order followed by the two titles, 26 columns that start
    with [name]; the schema has 28 and starts with [document_title]. *)
Lemma C4_single_record_columns :
  header (download_record (edit_form untouched sample_extraction)) =
    [ "name"; "father_husband_name"; "date_of_birth"; "mobile_number";
      "pan_number"; "aadhar_number"; "control_number"; "designation";
      "bill_unit_number"; "department"; "sr_number"; "date_of_appointment";
      "office_address"; "residential_address"; "bank_name"; "branch_name";
      "branch_code"; "account_number"; "ifsc_code"; "nominee_name";
      "nominee_relation"; "nominee_dob"; "nominee_aadhar"; "nominee_pan";
      "document_title"; "society_name" ] /\
  header (download_record (edit_form untouched sample_extraction)) <>
    EXCEL_COLUMNS.
Proof. split; [vm_compute; reflexivity|vm_compute; discriminate]. Qed.

(** ** A save that fails *)

Lemma save_to_excel_eq {reader : Reader} (data_dict : dict) (w : world) :
  save_to_excel data_dict w =
    match load_excel_data w with
    | (w1, inl e) =>
        (show (st_error ("❌ Error saving to Excel: " ++ str_exn e)) w1, false)
    | (w1, inr df) =>
        let w2 := mkWorld (disk w1) (tl (faults w1)) (screen w1) in
        match hd NoFault (faults w1) with
        | NoFault =>
            (show (st_success
                     ("✅ Data successfully saved to " ++ EXCEL_FILE_PATH))
               (set_disk
                  (Stored
                     (to_excel
                        (concat df (mkDF EXCEL_COLUMNS [schema_row data_dict]))
                        "Sheet1" false)) w2),
             true)
        | Refused msg =>
            (show (st_error ("❌ Error saving to Excel: " ++ msg)) w2, false)
        | Torn msg remains =>
            (show (st_error ("❌ Error saving to Excel: " ++ msg))
               (set_disk (Corrupt remains) w2), false)
        end
    end.
Proof.
  unfold save_to_excel. rewrite save_body_eq.
  destruct (load_excel_data w) as [w1 [e|df]]; [reflexivity|].
  rewrite to_excel_path_eq. cbv zeta.
  destruct (hd NoFault (faults w1)); reflexivity.
Qed.

(** C9, as the code has it: a save fails exactly when the file is no readable
    workbook or one of its two accesses to the file is refused or breaks
    off; it then has raised inside the [try] block, the exception is caught,
    its message is shown as an error and [False] is returned. If no access
    broke off halfway, the rows written in the store are the rows it had,
    and a file that existed is untouched (an absent one may have been
    created with the header and no row). *)
Theorem C9_failed_save_aborts {reader : Reader} (data_dict : dict)
  (w : world) :
  (snd (save_to_excel data_dict w) = false <->
   (exists why, disk w = Corrupt why) \/
   hd NoFault (faults w) <> NoFault \/
   hd NoFault (tl (faults w)) <> NoFault) /\
  (forall msg,
     hd NoFault (faults w) = Refused msg \/
     (exists remains, hd NoFault (faults w) = Torn msg remains) ->
     snd (save_to_excel data_dict w) = false /\
     exists shown,
       screen (fst (save_to_excel data_dict w)) =
         (shown ++ [st_error ("❌ Error saving to Excel: " ++ msg)])%list) /\
  (forall msg,
     (forall why, disk w <> Corrupt why) ->
     hd NoFault (faults w) = NoFault ->
     hd NoFault (tl (faults w)) = Refused msg \/
     (exists remains, hd NoFault (tl (faults w)) = Torn msg remains) ->
     snd (save_to_excel data_dict w) = false /\
     exists shown,
       screen (fst (save_to_excel data_dict w)) =
         (shown ++ [st_error ("❌ Error saving to Excel: " ++ msg)])%list) /\
  (forall why,
     disk w = Corrupt why -> hd NoFault (faults w) = NoFault ->
     snd (save_to_excel data_dict w) = false /\
     disk (fst (save_to_excel data_dict w)) = disk w /\
     screen (fst (save_to_excel data_dict w)) =
       (screen w ++ [st_error ("❌ Error saving to Excel: " ++ why)])%list) /\
  (forall w',
     save_to_excel data_dict w = (w', false) ->
     (exists w1 e,
        save_body data_dict w = (w1, inl e) /\
        w' = show (st_error ("❌ Error saving to Excel: " ++ str_exn e)) w1) /\
     (is_torn (hd NoFault (faults w)) = false ->
      is_torn (hd NoFault (tl (faults w))) = false ->
      stored_rows (disk w') = stored_rows (disk w) /\
      (disk w <> Absent -> disk w' = disk w))).
Proof.
  split; [|split; [|split; [|split]]].
  - rewrite save_to_excel_eq, load_excel_data_eq. cbv zeta.
    destruct w as [[|wb|why] fs sc]; cbn [disk faults screen];
      destruct (hd NoFault fs) eqn:H1;
      cbn [disk faults screen show set_disk snd];
      try destruct (hd NoFault (tl fs)) eqn:H2; cbn [snd];
      (split;
       [intros H; try discriminate H;
        try (now left; eexists); try (right; left; discriminate);
        right; right; discriminate
       |intros [[why' H]|[H|H]]; try reflexivity; try discriminate H;
        try (now contradiction H)]).
  - intros msg Hm. rewrite save_to_excel_eq, load_excel_data_eq. cbv zeta.
    destruct w as [[|wb|why] fs sc]; cbn [disk faults screen] in *;
      destruct Hm as [->|[remains ->]];
      cbn [fst snd screen show set_disk]; (split; [reflexivity|]);
      eexists; reflexivity.
  - intros msg Hd H1 Hm.
    rewrite save_to_excel_eq, load_excel_data_eq. cbv zeta.
    destruct w as [[|wb|why] fs sc]; cbn [disk faults screen] in *;
      try (now contradiction (Hd why)); rewrite H1;
      cbn [disk faults screen show set_disk];
      destruct Hm as [->|[remains ->]];
      cbn [fst snd screen show set_disk]; (split; [reflexivity|]);
      eexists; reflexivity.
  - intros why Hd H1. rewrite save_to_excel_eq, load_excel_data_eq.
    cbv zeta. rewrite Hd, H1. repeat split.
  - intros w' Hfail. split.
    + unfold save_to_excel in Hfail.
      destruct (save_body data_dict w) as [w1 [e|b]] eqn:Hb.
      * exists w1, e. split; [reflexivity|].
        apply (f_equal fst) in Hfail. now cbn [fst] in Hfail.
      * exfalso. revert Hb. rewrite save_body_eq.
        destruct (load_excel_data w) as [w2 [e|df]]; [discriminate|].
        destruct (to_excel_path _ w2) as [w3 [e|u]]; [discriminate|].
        intros [= _ <-]. now injection Hfail.
    + intros H1 H2.
      destruct (save_failure data_dict w w' Hfail)
        as (_ & [->|[[Ha ->]|[_ [Ht|Ht]]]]).
      * now split.
      * rewrite Ha. split; [reflexivity|]. intros H. now contradiction H.
      * rewrite H1 in Ht. discriminate.
      * rewrite H2 in Ht. discriminate.
Qed.

Lemma C9_witness :
  snd (save_to_excel (reader := as_written) sample_extraction
         (mkWorld one_row_store [NoFault; Refused "Permission denied"] []))
    = false /\
  exists shown,
    screen (fst (save_to_excel (reader := as_written) sample_extraction
                   (mkWorld one_row_store
                      [NoFault; Refused "Permission denied"] []))) =
      (shown ++ [st_error "❌ Error saving to Excel: Permission denied"])%list.
Proof.
  destruct (C9_failed_save_aborts (reader := as_written) sample_extraction
              (mkWorld one_row_store [NoFault; Refused "Permission denied"]
                 [])) as (_ & _ & H & _).
  apply (H "Permission denied").
  - discriminate.
  - reflexivity.
  - left. reflexivity.
Defined.

(** C9 as stated fails: with the file absent, the load creates it, and when
    the write of the new table is then refused the save fails with the file
    now there; and a write that breaks off halfway leaves no readable store
    where there was one row. *)
Lemma C9_failed_save_changes_file :
  save_to_excel (reader := as_written) sample_extraction
    (mkWorld Absent [NoFault; Refused "Permission denied"] []) =
    (mkWorld (Stored fresh_workbook) []
       [st_success "✅ Created new database file: kyc_database.xlsx";
        st_error "❌ Error saving to Excel: Permission denied"],
     false) /\
  save_to_excel (reader := as_written) sample_extraction
    (mkWorld one_row_store
       [NoFault; Torn "No space left on device" "File is not a zip file"] []) =
    (mkWorld (Corrupt "File is not a zip file") []
       [st_error "❌ Error saving to Excel: No space left on device"],
     false).
Proof. split; vm_compute; reflexivity. Qed.

End Store_facts.

(** * More on the extraction loop *)

Module Loop_more.
Import Extraction_loop Loop_facts.

(** ** Order on the numbers *)

Lemma Qgtb_lt (x y : Q) : Qgtb x y = true <-> (y < x)%Q.
Proof.
  unfold Qgtb. rewrite negb_true_iff. split.
  - intros H. apply Qnot_le_lt. intros Hle. apply Qle_bool_iff in Hle.
    congruence.
  - intros H. destruct (Qle_bool x y) eqn:E; [|reflexivity].
    apply Qle_bool_iff in E. exfalso. exact (Qlt_not_le _ _ H E).
Qed.

Lemma fl_gt_trans (a b c : fl) :
  fl_gt a b = true -> fl_gt b c = true -> fl_gt a c = true.
Proof.
  destruct a, b, c; cbn; try easy.
  rewrite !Qgtb_lt. intros H1 H2. exact (Qlt_trans _ _ _ H2 H1).
Qed.

Lemma num_gt_trans (a b c : pynum) :
  num_gt a b = true -> num_gt b c = true -> num_gt a c = true.
Proof. apply fl_gt_trans. Qed.

Lemma dict_get_set_other (k k' : string) (v : json) (d : dict) :
  k <> k' -> dict_get k (dict_set k' v d) = dict_get k d.
Proof.
  intros Hne. induction d as [|[k0 v0] d IH]; cbn.
  - destruct (String.eqb k k') eqn:E; [|reflexivity].
    apply String.eqb_eq in E. contradiction.
  - destruct (String.eqb k' k0) eqn:E; cbn.
    + apply String.eqb_eq in E. subst k0.
      destruct (String.eqb k k') eqn:E'; [|reflexivity].
      apply String.eqb_eq in E'. contradiction.
    + now rewrite IH.
Qed.

(** ** Where the result comes from *)

Lemma for_models_provenance (models : list (string * outcome)) (s : state) :
  (best_result (for_models models s) = best_result s /\
   highest_confidence (for_models models s) = highest_confidence s) \/
  exists model_name d c,
    In (model_name, Responds (JObj d)) (consulted models) /\
    confidence_of d = JNum c /\
    num_gt c (highest_confidence s) = true /\
    best_result (for_models models s) =
      Some (dict_set "model_used" (JStr model_name) d) /\
    highest_confidence (for_models models s) = c.
Proof.
  revert s. induction models as [|[model_name o] rest IH]; intros s.
  - now left.
  - rewrite for_models_cons. cbn [consulted].
    destruct (scored o) as [c|] eqn:Ho.
    + destruct (scored_inv _ _ Ho) as [d [-> Hc]].
      destruct (turn_scored_best model_name d c s Hc) as (Hb & Hh & _).
      destruct (num_gt c (highest_confidence s)) eqn:Hgt.
      * destruct (early_exit (Responds (JObj d))).
        { right. exists model_name, d, c. repeat split; auto. now left. }
        destruct (IH (for_models [(model_name, Responds (JObj d))] s))
          as [[Hb' Hh']|(m' & d' & c' & Hin & Hc' & Hgt' & Hb' & Hh')].
        { right. exists model_name, d, c. rewrite Hb', Hh'.
          repeat split; auto. now left. }
        { right. exists m', d', c'. rewrite Hh in Hgt'.
          repeat split; auto; [now right|].
          exact (num_gt_trans _ _ _ Hgt' Hgt). }
      * destruct (early_exit (Responds (JObj d))); [now left|].
        destruct (IH (for_models [(model_name, Responds (JObj d))] s))
          as [[Hb' Hh']|(m' & d' & c' & Hin & Hc' & Hgt' & Hb' & Hh')].
        { left. rewrite Hb', Hh'. now split. }
        { right. exists m', d', c'. rewrite Hh in Hgt'.
          repeat split; auto. now right. }
    + destruct (turn_failed_best model_name o s Ho) as (Hb & Hh).
      unfold early_exit. rewrite Ho.
      destruct (IH (for_models [(model_name, o)] s))
        as [[Hb' Hh']|(m' & d' & c' & Hin & Hc' & Hgt' & Hb' & Hh')].
      * left. rewrite Hb', Hh'. now split.
      * right. exists m', d', c'. rewrite Hh in Hgt'.
        repeat split; auto. now right.
Qed.

Lemma run_core (models : list (string * outcome)) :
  best_result (run models) = best_result (for_models models initial) /\
  highest_confidence (run models) =
    highest_confidence (for_models models initial) /\
  errors (run models) = errors (for_models models initial).
Proof. unfold run. destruct (_ && _); repeat split. Qed.

(** X1: a record that is returned is the response of one of the candidates
    consulted, with [model_used] set to that candidate's name and every
    other key as the model gave it; that response was scored above the
    initial -1.0, and its confidence is the highest confidence the loop
    ends with. *)
Theorem result_is_a_consulted_response (models : list (string * outcome))
  (r : dict) (Hret : returned models = Some r) :
  exists model_name d c,
    In (model_name, Responds (JObj d)) (consulted models) /\
    confidence_of d = JNum c /\
    num_gt c f_neg_1_0 = true /\
    highest_confidence (run models) = c /\
    r = dict_set "model_used" (JStr model_name) d /\
    dict_get "model_used" r = Some (JStr model_name) /\
    (forall k, k <> "model_used" -> dict_get k r = dict_get k d).
Proof.
  rewrite returned_for_models in Hret.
  destruct (run_core models) as (_ & Hh & _).
  destruct (for_models_provenance models initial)
    as [[Hb _]|(m & d & c & Hin & Hc & Hgt & Hb & Hh')].
  - rewrite Hb in Hret. discriminate.
  - rewrite Hb in Hret. injection Hret as <-.
    exists m, d, c. rewrite Hh, Hh'. repeat split; auto.
    + apply dict_get_set_same.
    + intros k Hk. now apply dict_get_set_other.
Qed.

Lemma result_is_a_consulted_response_witness :
  exists model_name d c,
    In (model_name, Responds (JObj d))
      (consulted [("a", Raises "quota"); ("b", respond "B" half)]) /\
    confidence_of d = JNum c /\
    num_gt c f_neg_1_0 = true /\
    highest_confidence (run [("a", Raises "quota"); ("b", respond "B" half)])
      = c /\
    [("name", JStr "B"); ("confidence_score", half); ("model_used", JStr "b")]
      = dict_set "model_used" (JStr model_name) d /\
    dict_get "model_used"
      [("name", JStr "B"); ("confidence_score", half);
       ("model_used", JStr "b")] = Some (JStr model_name) /\
    (forall k, k <> "model_used" ->
       dict_get k [("name", JStr "B"); ("confidence_score", half);
                   ("model_used", JStr "b")] = dict_get k d).
Proof.
  apply (result_is_a_consulted_response
           [("a", Raises "quota"); ("b", respond "B" half)]).
  reflexivity.
Defined.

(** X2: nothing is returned exactly when no candidate's response is scored
    above the initial -1.0. *)
Theorem nothing_returned_iff_none_above_initial
  (models : list (string * outcome)) :
  returned models = None <->
  (forall model_name o c,
     In (model_name, o) models -> scored o = Some c ->
     num_gt c f_neg_1_0 = false).
Proof.
  rewrite returned_for_models. split.
  - intros Hnone m o c Hin Ho.
    destruct (num_gt c f_neg_1_0) eqn:Hgt; [|reflexivity].
    exfalso.
    apply (for_models_gives_result models initial m o c); auto.
    reflexivity.
  - intros H. now destruct (never_beaten models initial H) as [-> _].
Qed.

(** ** A failed call leaves no trace in the result *)

Lemma turn_core (model_name : string) (o : outcome) (s1 s2 : state) :
  best_result s1 = best_result s2 ->
  highest_confidence s1 = highest_confidence s2 ->
  best_result (for_models [(model_name, o)] s1) =
    best_result (for_models [(model_name, o)] s2) /\
  highest_confidence (for_models [(model_name, o)] s1) =
    highest_confidence (for_models [(model_name, o)] s2).
Proof.
  intros Hb Hh. destruct (scored o) as [c|] eqn:Ho.
  - destruct (scored_inv _ _ Ho) as [d [-> Hc]].
    destruct (turn_scored_best model_name d c s1 Hc) as (-> & -> & _).
    destruct (turn_scored_best model_name d c s2 Hc) as (-> & -> & _).
    rewrite Hb, Hh. now split.
  - destruct (turn_failed_best model_name o s1 Ho) as (-> & ->).
    destruct (turn_failed_best model_name o s2 Ho) as (-> & ->).
    now split.
Qed.

Lemma for_models_core (models : list (string * outcome)) (s1 s2 : state) :
  best_result s1 = best_result s2 ->
  highest_confidence s1 = highest_confidence s2 ->
  best_result (for_models models s1) = best_result (for_models models s2) /\
  highest_confidence (for_models models s1) =
    highest_confidence (for_models models s2).
Proof.
  revert s1 s2. induction models as [|[model_name o] rest IH];
    intros s1 s2 Hb Hh; [now split|].
  destruct (turn_core model_name o s1 s2 Hb Hh) as [Hb' Hh'].
  rewrite !(for_models_cons model_name o rest).
  destruct (early_exit o); [now split|]. now apply IH.
Qed.

Lemma for_models_app_exit (pre rest : list (string * outcome)) (s : state) :
  existsb (fun mo => early_exit (snd mo)) pre = true ->
  for_models (pre ++ rest) s = for_models pre s.
Proof.
  revert s. induction pre as [|[model_name o] pre IH]; intros s H;
    [discriminate|].
  cbn [existsb snd] in H. cbn [app].
  rewrite (for_models_cons model_name o (pre ++ rest)),
    (for_models_cons model_name o pre).
  destruct (early_exit o); [reflexivity|]. now apply IH.
Qed.

Lemma for_models_app_no_exit (pre rest : list (string * outcome))
  (s : state) :
  existsb (fun mo => early_exit (snd mo)) pre = false ->
  for_models (pre ++ rest) s = for_models rest (for_models pre s).
Proof.
  intros H. apply for_models_app. apply Forall_forall. intros mo Hin.
  destruct (early_exit (snd mo)) eqn:E; [|reflexivity].
  assert (Hex : existsb (fun mo => early_exit (snd mo)) pre = true)
    by (apply existsb_exists; now exists mo).
  congruence.
Qed.

(** X3: a candidate whose call fails can be taken out of the list without
    changing what is returned or the highest confidence reached, wherever
    it stands. *)
Theorem failed_call_is_skipped (pre post : list (string * outcome))
  (model_name : string) (o : outcome) (Hfail : scored o = None) :
  returned (pre ++ (model_name, o) :: post) = returned (pre ++ post) /\
  highest_confidence (run (pre ++ (model_name, o) :: post)) =
    highest_confidence (run (pre ++ post)).
Proof.
  destruct (run_core (pre ++ (model_name, o) :: post)) as (Hb1 & Hh1 & _).
  destruct (run_core (pre ++ post)) as (Hb2 & Hh2 & _).
  unfold returned. rewrite Hb1, Hb2, Hh1, Hh2.
  destruct (existsb (fun mo => early_exit (snd mo)) pre) eqn:Hex.
  - rewrite !(for_models_app_exit pre) by exact Hex. now split.
  - rewrite !(for_models_app_no_exit pre) by exact Hex.
    rewrite for_models_cons. unfold early_exit. rewrite Hfail.
    apply for_models_core; now apply turn_failed_best.
Qed.

Lemma failed_call_is_skipped_witness :
  returned [("a", respond "A" half); ("b", Responds (JArr []));
            ("c", respond "C" one)] =
  returned [("a", respond "A" half); ("c", respond "C" one)] /\
  highest_confidence (run [("a", respond "A" half); ("b", Responds (JArr []));
                           ("c", respond "C" one)]) =
  highest_confidence (run [("a", respond "A" half); ("c", respond "C" one)]).
Proof.
  apply (failed_call_is_skipped [("a", respond "A" half)]
           [("c", respond "C" one)] "b" (Responds (JArr []))).
  reflexivity.
Defined.

(** ** Errors and the screen *)

Lemma turn_scored_log (model_name : string) (d : dict) (c : pynum)
  (s : state) :
  confidence_of d = JNum c ->
  let s' := for_models [(model_name, Responds (JObj d))] s in
  errors s' = errors s /\
  screen s' =
    (screen s ++ trying model_name ::
       (if num_gt c f_0_98 then [finalizing] else []))%list.
Proof.
  intros Hc. cbv zeta. rewrite (turn_scored _ _ _ _ Hc). unfold scored_state.
  destruct (num_gt c (highest_confidence s)), (num_gt c f_0_98);
    cbn [errors screen show set_best add_call]; rewrite <- ?app_assoc;
    now split.
Qed.

Lemma for_models_errors (models : list (string * outcome)) (s : state) :
  exists new,
    errors (for_models models s) = (errors s ++ new)%list /\
    Forall2 (fun mo e => exists reason, e = failure_message (fst mo) reason)
      (filter (fun mo => failed (snd mo)) (consulted models)) new /\
    (forall e, In (st_warning e) (screen s) \/ In e new ->
               In (st_warning e) (screen (for_models models s))).
Proof.
  revert s. induction models as [|[model_name o] rest IH]; intros s.
  - exists []. rewrite app_nil_r. repeat split; [constructor|].
    intros e [H|[]]. exact H.
  - rewrite for_models_cons. cbn [consulted].
    assert (Hfo : failed o = match scored o with Some _ => false | None => true end)
      by reflexivity.
    destruct (scored o) as [c|] eqn:Ho.
    + destruct (scored_inv _ _ Ho) as [d [-> Hc]].
      destruct (turn_scored_log model_name d c s Hc) as (He & Hs).
      cbv zeta in He, Hs.
      destruct (early_exit (Responds (JObj d))).
      * exists []. rewrite He, app_nil_r. cbn [filter snd].
        rewrite Hfo. repeat split; [constructor|].
        intros e [H|[]]. rewrite Hs. apply in_or_app. now left.
      * destruct (IH (for_models [(model_name, Responds (JObj d))] s))
          as (new & He' & Hf & Hw).
        exists new. rewrite He', He. cbn [filter snd].
        rewrite Hfo. repeat split; [exact Hf|].
        intros e [H|H]; apply Hw; [left|now right].
        rewrite Hs. apply in_or_app. now left.
    + assert (He : early_exit o = false)
        by (unfold early_exit; now rewrite Ho).
      rewrite He. destruct (turn_failed model_name o s Ho) as [reason ->].
      cbv zeta. set (msg := failure_message model_name reason).
      destruct (IH (show (st_warning msg)
                      (add_error msg
                         (add_call model_name (show (trying model_name) s)))))
        as (new & He' & Hf & Hw).
      exists (msg :: new). cbn [filter snd]. rewrite Hfo.
      split; [|split].
      * rewrite He'. cbn [errors show add_error add_call].
        now rewrite <- app_assoc.
      * constructor; [now exists reason|exact Hf].
      * intros e He''. apply Hw. cbn [screen show add_error add_call].
        destruct He'' as [H|[H|H]].
        { left. apply in_or_app. left. apply in_or_app. now left. }
        { left. subst e. apply in_or_app. right. now left. }
        { now right. }
Qed.

(** X4: the error list has one message for each consulted candidate whose
    call failed, in list order, each naming its model; there are as many
    errors as failed calls, and every one of them has been shown as a
    warning. *)
Theorem one_error_per_failed_call (models : list (string * outcome)) :
  Forall2 (fun mo e => exists reason, e = failure_message (fst mo) reason)
    (filter (fun mo => failed (snd mo)) (consulted models))
    (errors (run models)) /\
  List.length (errors (run models)) =
    List.length (filter (fun mo => failed (snd mo)) (consulted models)) /\
  (forall e, In e (errors (run models)) ->
             In (st_warning e) (screen (run models))).
Proof.
  destruct (for_models_errors models initial) as (new & He & Hf & Hw).
  cbn [errors initial app] in He.
  destruct (run_core models) as (_ & _ & Hre). rewrite Hre, He.
  split; [exact Hf|]. split.
  - symmetry. eapply Forall2_length. exact Hf.
  - intros e Hin. unfold run.
    destruct (_ && _); cbn [screen show]; [apply in_or_app; left|];
      apply Hw; now right.
Qed.

Lemma turn_screen (model_name : string) (o : outcome) (s : state) :
  exists shown,
    screen (for_models [(model_name, o)] s) = (screen s ++ shown)%list /\
    Forall (fun e => loop_event e = true) shown.
Proof.
  destruct (scored o) as [c|] eqn:Ho.
  - destruct (scored_inv _ _ Ho) as [d [-> Hc]].
    destruct (turn_scored_log model_name d c s Hc) as (_ & Hs).
    cbv zeta in Hs. eexists. split; [exact Hs|].
    destruct (num_gt c f_0_98); repeat constructor.
  - destruct (turn_failed model_name o s Ho) as [reason ->]. cbv zeta.
    cbn [screen show add_error add_call]. rewrite <- app_assoc.
    eexists. split; [reflexivity|]. repeat constructor.
Qed.

Lemma for_models_screen (models : list (string * outcome)) (s : state) :
  Forall (fun e => loop_event e = true) (screen s) ->
  Forall (fun e => loop_event e = true) (screen (for_models models s)).
Proof.
  revert s. induction models as [|[model_name o] rest IH]; intros s H;
    [exact H|].
  assert (Hturn : Forall (fun e => loop_event e = true)
                    (screen (for_models [(model_name, o)] s))).
  { destruct (turn_screen model_name o s) as (shown & -> & Hs).
    apply Forall_app. now split. }
  rewrite for_models_cons. destruct (early_exit o); [exact Hturn|].
  now apply IH.
Qed.

(** X5: the error that all models failed is on the screen exactly when
    nothing is returned and at least one call failed; it is never shown
    beside a returned record, and never when no call failed. *)
Theorem all_failed_shown_iff (models : list (string * outcome)) :
  In (st_error all_failed_message) (screen (run models)) <->
  returned models = None /\ errors (run models) <> [].
Proof.
  pose proof (for_models_stamped models initial eq_refl) as Hst.
  pose proof (for_models_screen models initial (Forall_nil _)) as Hsc.
  unfold returned, run. unfold stamped in Hst.
  set (s := for_models models initial) in *.
  destruct (best_result s) as [r|] eqn:Hr; cbn [not_result].
  - assert (Ht : truthy (JObj r) = true).
    { destruct Hst as [m Hm]. destruct r; [discriminate|reflexivity]. }
    rewrite Ht. cbn [negb andb]. rewrite Hr. split.
    + intros Hin. rewrite Forall_forall in Hsc.
      specialize (Hsc _ Hin). discriminate.
    + intros [H _]. discriminate.
  - cbn [andb]. destruct (errors s) as [|e es] eqn:He; cbn [nonempty].
    + rewrite Hr, He. split.
      * intros Hin. rewrite Forall_forall in Hsc.
        specialize (Hsc _ Hin). discriminate.
      * intros [_ H]. now contradiction H.
    + cbn [best_result errors screen show]. rewrite Hr, He. split.
      * intros _. split; [reflexivity|discriminate].
      * intros _. apply in_or_app. right. now left.
Qed.

End Loop_more.

(** * More on the store *)

Module Store_more.
Import Store Store_facts.
Local Open Scope list_scope.

(** ** Reading *)

(** X8: loading and exporting never change a file that is there, whatever
    faults they meet: only an absent file is ever written by them. *)
Theorem reads_leave_existing_file {reader : Reader} (w : world)
  (Hthere : disk w <> Absent) :
  disk (fst (load_excel_data w)) = disk w /\
  disk (fst (download_excel_file w)) = disk w.
Proof.
  rewrite download_excel_file_eq, load_excel_data_eq. cbv zeta.
  destruct w as [[|wb|why] fs sc]; cbn [disk faults screen] in *;
    [now contradiction Hthere| |];
    destruct (hd NoFault fs); split; reflexivity.
Qed.

Lemma reads_leave_existing_file_witness :
  disk (fst (load_excel_data (reader := as_written)
               (mkWorld one_row_store [Torn "x" "y"] []))) =
    one_row_store /\
  disk (fst (download_excel_file (reader := as_written)
               (mkWorld one_row_store [Torn "x" "y"] []))) =
    one_row_store.
Proof.
  apply (reads_leave_existing_file (reader := as_written)
           (mkWorld one_row_store [Torn "x" "y"] [])).
  discriminate.
Defined.

(** X9: an unreadable store file is never repaired: whatever the record and
    the faults, a save returns [False], an export returns nothing, each
    shows an error, and the file stays as it is. *)
Theorem unreadable_store_stays {reader : Reader} (data_dict : dict)
  (w : world) (why : string) (Hbad : disk w = Corrupt why) :
  snd (save_to_excel data_dict w) = false /\
  disk (fst (save_to_excel data_dict w)) = Corrupt why /\
  snd (download_excel_file w) = None /\
  disk (fst (download_excel_file w)) = Corrupt why /\
  (exists e,
     screen (fst (save_to_excel data_dict w)) =
       screen w ++
       [st_error ("❌ Error saving to Excel: " ++ str_exn e)%string])
  /\
  (exists e,
     screen (fst (download_excel_file w)) =
       screen w ++
       [st_error ("Error preparing Excel download: " ++ str_exn e)%string]).
Proof.
  unfold save_to_excel.
  rewrite download_excel_file_eq, save_body_eq, load_excel_data_eq.
  cbv zeta. rewrite Hbad.
  destruct (hd NoFault (faults w)); cbn [fst snd disk screen show];
    repeat split; eexists; reflexivity.
Qed.

Lemma unreadable_store_stays_witness :
  snd (save_to_excel (reader := as_written) sample_extraction
         (mkWorld (Corrupt "File is not a zip file") [] [])) = false /\
  disk (fst (save_to_excel (reader := as_written) sample_extraction
               (mkWorld (Corrupt "File is not a zip file") [] []))) =
    Corrupt "File is not a zip file".
Proof.
  destruct (unreadable_store_stays (reader := as_written) sample_extraction
              (mkWorld (Corrupt "File is not a zip file") [] [])
              "File is not a zip file" eq_refl) as (H1 & H2 & _).
  now split.
Defined.

(** ** What a save depends on *)

(** X10: a save looks at the record only under the schema's keys: two
    records that agree there, whatever their other keys and the order of
    their keys, are saved alike, with the same file, screen and answer. *)
Theorem save_reads_schema_keys_only {reader : Reader} (d1 d2 : dict)
  (w : world)
  (Hagree : forall col, In col EXCEL_COLUMNS ->
                        dict_get col d1 = dict_get col d2) :
  save_to_excel d1 w = save_to_excel d2 w.
Proof.
  assert (Hrow : schema_row d1 = schema_row d2).
  { unfold schema_row. apply map_ext_in. intros col Hin.
    unfold dict_get_default. now rewrite (Hagree col Hin). }
  unfold save_to_excel. now rewrite !save_body_eq, Hrow.
Qed.

Lemma save_reads_schema_keys_only_witness :
  save_to_excel (reader := as_written)
    [("name", JStr "A"); ("extra", JStr "x")] (mkWorld Absent [] []) =
  save_to_excel (reader := as_written)
    [("unknown", JNull); ("name", JStr "A")] (mkWorld Absent [] []).
Proof.
  apply (save_reads_schema_keys_only (reader := as_written)).
  intros col Hin. cbn in Hin.
  repeat (destruct Hin as [<-|Hin]; [reflexivity|]). destruct Hin.
Defined.

(** ** The edited record *)

Section Edited.
Variable text_input : string -> json -> string.
Variable data_to_edit : dict.

Lemma create_form_section_get (fields : list string) (temp : dict)
  (k : string) :
  dict_get k (create_form_section text_input data_to_edit fields temp) =
    if existsb (String.eqb k) fields && dict_mem k data_to_edit
    then Some (form_value text_input data_to_edit k)
    else dict_get k temp.
Proof.
  unfold create_form_section. revert temp.
  induction fields as [|f fields IH]; intros temp; [reflexivity|].
  cbn [fold_left existsb]. rewrite IH.
  destruct (String.eqb k f) eqn:E.
  - apply String.eqb_eq in E. subst f. cbn [orb].
    destruct (dict_mem k data_to_edit).
    + rewrite andb_true_r. fold (form_value text_input data_to_edit k).
      rewrite Loop_facts.dict_get_set_same. now destruct (existsb _ fields).
    + now rewrite andb_false_r.
  - cbn [orb]. destruct (existsb (String.eqb k) fields && _); [reflexivity|].
    destruct (dict_mem f data_to_edit); [|reflexivity].
    apply Loop_more.dict_get_set_other. intros ->.
    now rewrite String.eqb_refl in E.
Qed.

Lemma edit_form_get (k : string) :
  k <> "document_title" -> k <> "society_name" ->
  dict_get k (edit_form text_input data_to_edit) =
    if existsb (String.eqb k) form_fields && dict_mem k data_to_edit
    then Some (form_value text_input data_to_edit k)
    else None.
Proof.
  intros H1 H2. unfold edit_form. cbv zeta.
  rewrite !Loop_more.dict_get_set_other by assumption.
  rewrite !create_form_section_get. unfold form_fields.
  rewrite !existsb_app. cbn [dict_get].
  destruct (dict_mem k data_to_edit);
    [rewrite !andb_true_r|now rewrite !andb_false_r].
  destruct (existsb _ personal_info), (existsb _ employment_info),
    (existsb _ address_info), (existsb _ bank_info),
    (existsb _ nominee_info); reflexivity.
Qed.

(** X11: the record the edit form leaves holds, under each form field the
    record it started from had, the text of that field's input; under
    [document_title] and [society_name] the values it started from, null
    when absent; and no other key: the confidence and the model's name are
    gone. *)
Theorem edit_form_contents :
  dict_get "document_title" (edit_form text_input data_to_edit) =
    Some (dict_get_default "document_title" JNull data_to_edit) /\
  dict_get "society_name" (edit_form text_input data_to_edit) =
    Some (dict_get_default "society_name" JNull data_to_edit) /\
  (forall k,
     k <> "document_title" -> k <> "society_name" ->
     dict_get k (edit_form text_input data_to_edit) =
       if existsb (String.eqb k) form_fields && dict_mem k data_to_edit
       then Some (form_value text_input data_to_edit k)
       else None) /\
  dict_get "confidence_score" (edit_form text_input data_to_edit) = None /\
  dict_get "model_used" (edit_form text_input data_to_edit) = None.
Proof.
  split; [|split; [|split; [|split]]].
  - unfold edit_form. cbv zeta.
    rewrite Loop_more.dict_get_set_other by discriminate.
    apply Loop_facts.dict_get_set_same.
  - unfold edit_form. cbv zeta. apply Loop_facts.dict_get_set_same.
  - apply edit_form_get.
  - rewrite edit_form_get by discriminate. reflexivity.
  - rewrite edit_form_get by discriminate. reflexivity.
Qed.

(** X12: the frame a save builds from a record of the edit form (the record
    as a one-row frame, the schema's missing columns added, the schema's
    columns selected) has the schema's columns and one row, with null cells
    under [confidence_score] and [model_used], whatever extraction the
    record came from. *)
Theorem saved_edit_has_no_metadata :
  select EXCEL_COLUMNS
    (ensure_columns EXCEL_COLUMNS
       (frame_of_record (edit_form text_input data_to_edit))) =
    inr (mkDF EXCEL_COLUMNS
           [schema_row (edit_form text_input data_to_edit)]) /\
  row_get EXCEL_COLUMNS (schema_row (edit_form text_input data_to_edit))
    "confidence_score" = Some JNull /\
  row_get EXCEL_COLUMNS (schema_row (edit_form text_input data_to_edit))
    "model_used" = Some JNull.
Proof.
  split; [apply new_record_schema|]. unfold schema_row.
  rewrite !(row_get_map
              (fun c => dict_get_default c JNull
                          (edit_form text_input data_to_edit)))
    by (cbn; tauto).
  unfold dict_get_default.
  rewrite !edit_form_get by discriminate. split; reflexivity.
Qed.

End Edited.

(** ** The keys of the edited record, in order *)

Lemma dict_keys_set_fresh (k : string) (v : json) (d : dict) :
  dict_get k d = None -> dict_keys (dict_set k v d) = dict_keys d ++ [k].
Proof.
  induction d as [|[k0 v0] d IH]; cbn; [reflexivity|].
  destruct (String.eqb k k0); [discriminate|]. intros H. cbn.
  f_equal. now apply IH.
Qed.

Lemma create_form_section_keys_fresh
  (text_input : string -> json -> string) (data_to_edit : dict)
  (fields : list string) (temp : dict) :
  NoDup fields ->
  (forall f, In f fields -> dict_get f temp = None) ->
  dict_keys (create_form_section text_input data_to_edit fields temp) =
    dict_keys temp ++ filter (fun f => dict_mem f data_to_edit) fields.
Proof.
  unfold create_form_section. intros Hnd. revert temp.
  induction Hnd as [|f fields Hf Hnd IH]; intros temp Hfresh.
  - cbn. now rewrite app_nil_r.
  - cbn [fold_left filter]. destruct (dict_mem f data_to_edit).
    + rewrite IH.
      * rewrite dict_keys_set_fresh by (apply Hfresh; now left).
        now rewrite <- app_assoc.
      * intros g Hg. rewrite Loop_more.dict_get_set_other.
        { apply Hfresh. now right. }
        { intros ->. contradiction. }
    + apply IH. intros g Hg. apply Hfresh. now right.
Qed.

Lemma form_fields_NoDup : NoDup form_fields.
Proof.
  unfold form_fields, personal_info, employment_info, address_info,
    bank_info, nominee_info. cbn [app].
  repeat (constructor; [cbn; intuition discriminate|]). constructor.
Qed.

Lemma form_field_is_no_title (f : string) :
  In f form_fields -> f <> "document_title" /\ f <> "society_name".
Proof.
  intros Hin. cbn in Hin.
  repeat (destruct Hin as [<-|Hin]; [split; discriminate|]). destruct Hin.
Qed.

Lemma create_form_section_app (text_input : string -> json -> string)
  (data_to_edit : dict) (l1 l2 : list string) (temp : dict) :
  create_form_section text_input data_to_edit l2
    (create_form_section text_input data_to_edit l1 temp) =
  create_form_section text_input data_to_edit (l1 ++ l2) temp.
Proof. unfold create_form_section. now rewrite fold_left_app. Qed.

Lemma edit_form_dict_keys (text_input : string -> json -> string)
  (data_to_edit : dict) :
  dict_keys (edit_form text_input data_to_edit) =
    filter (fun f => dict_mem f data_to_edit) form_fields ++
    ["document_title"; "society_name"].
Proof.
  unfold edit_form. cbv zeta. rewrite !create_form_section_app.
  fold form_fields.
  set (temp := create_form_section text_input data_to_edit form_fields []).
  assert (Hk : dict_keys temp =
               filter (fun f => dict_mem f data_to_edit) form_fields).
  { unfold temp. rewrite create_form_section_keys_fresh.
    - reflexivity.
    - apply form_fields_NoDup.
    - reflexivity. }
  assert (Hget : forall k, existsb (String.eqb k) form_fields = false ->
                           dict_get k temp = None).
  { intros k Hex. unfold temp. rewrite create_form_section_get, Hex.
    reflexivity. }
  rewrite dict_keys_set_fresh.
  - rewrite dict_keys_set_fresh by (apply Hget; reflexivity).
    now rewrite Hk, <- app_assoc.
  - rewrite Loop_more.dict_get_set_other by discriminate.
    apply Hget. reflexivity.
Qed.


(** X14: the edit form keeps its shape when the page runs again: fed the
    record it left, with whatever texts in the inputs, it leaves a record
    with the same keys in the same order. *)
Theorem edit_form_keys_stable
  (text_input text_input' : string -> json -> string) (data_to_edit : dict) :
  dict_keys (edit_form text_input' (edit_form text_input data_to_edit)) =
  dict_keys (edit_form text_input data_to_edit).
Proof.
  rewrite !edit_form_dict_keys.
  f_equal. apply filter_ext_in. intros f Hin.
  destruct (form_field_is_no_title f Hin) as [H1 H2].
  unfold dict_mem at 1. rewrite edit_form_get by assumption.
  assert (Hex : existsb (String.eqb f) form_fields = true)
    by (apply existsb_exists; exists f; split;
        [exact Hin|apply String.eqb_refl]).
  rewrite Hex. now destruct (dict_mem f data_to_edit).
Qed.

End Store_more.

(** * The page around the record *)

Module Page_facts.
Import Page.

(** ** The summary *)

Section Summary_facts.
Variable format_2f : pynum -> string.


(** X16: once the edit form has run, the summary has lost both values: on
    the record the form leaves, the confidence shown is "N/A" and the model
    shown is "Unknown", whatever was extracted. *)
Theorem summary_after_edit (text_input : string -> json -> string)
  (data_to_edit : dict) :
  confidence_metric format_2f (Store.edit_form text_input data_to_edit) =
    inr "N/A" /\
  model_metric (Store.edit_form text_input data_to_edit) = JStr "Unknown".
Proof.
  unfold confidence_metric, model_metric, dict_get_default.
  rewrite !Store_more.edit_form_get by discriminate. split; reflexivity.
Qed.

End Summary_facts.


(** A model that answers with the confidence [10**400] is kept as the best
    result, and the summary then fails to format it. *)
Example summary_overflow :
  Extraction_loop.returned
    [("b", Extraction_loop.respond "B" (JNum (PInt (10 ^ 400))))] =
    Some [("name", JStr "B"); ("confidence_score", JNum (PInt (10 ^ 400)));
          ("model_used", JStr "b")] /\
  confidence_metric (fun _ => "")
    [("name", JStr "B"); ("confidence_score", JNum (PInt (10 ^ 400)));
     ("model_used", JStr "b")] =
    inl (OverflowError (10 ^ 400)).
Proof. split; vm_compute; reflexivity. Qed.

(** ** File names *)

Lemma before_dot_app (stem rest : string) :
  ~ In "."%char (list_ascii_of_string stem) ->
  before_dot (stem ++ rest) = stem ++ before_dot rest.
Proof.
  induction stem as [|c stem IH]; intros H; [reflexivity|].
  cbn in H |- *. destruct (Ascii.eqb c ".") eqn:E.
  - apply Ascii.eqb_eq in E. subst c. exfalso. apply H. now left.
  - f_equal. apply IH. intros Hin. apply H. now right.
Qed.

(** X17: the download names keep the upload's name up to its first dot and
    nothing after it: for an upload named [stem.rest], with no dot in
    [stem], they are [stem_extracted.json] and [stem_kyc.xlsx] whatever
    [rest] is, further dots included; a name without a dot is kept whole. *)
Theorem download_names (stem rest : string)
  (Hstem : ~ In "."%char (list_ascii_of_string stem)) :
  json_file_name (Some (stem ++ "." ++ rest)) = stem ++ "_extracted.json" /\
  excel_file_name (Some (stem ++ "." ++ rest)) = stem ++ "_kyc.xlsx" /\
  json_file_name (Some stem) = stem ++ "_extracted.json" /\
  excel_file_name (Some stem) = stem ++ "_kyc.xlsx".
Proof.
  assert (H1 : before_dot (stem ++ "." ++ rest) = stem).
  { rewrite (before_dot_app stem _ Hstem). cbn.
    induction stem; cbn; [reflexivity|]. f_equal. apply IHstem.
    intros Hin. apply Hstem. now right. }
  assert (H2 : before_dot stem = stem).
  { clear H1. induction stem as [|c stem IH]; [reflexivity|]. cbn in *.
    destruct (Ascii.eqb c ".") eqn:E.
    - apply Ascii.eqb_eq in E. subst c. exfalso. apply Hstem. now left.
    - f_equal. apply IH. intros Hin. apply Hstem. now right. }
  unfold json_file_name, excel_file_name. rewrite H1, H2. repeat split.
Qed.

Lemma download_names_witness :
  json_file_name (Some "form.v2.png") = "form_extracted.json" /\
  excel_file_name (Some "form.v2.png") = "form_kyc.xlsx".
Proof.
  destruct (download_names "form" "v2.png") as (H1 & H2 & _).
  - cbn. intuition discriminate.
  - split; [exact H1|exact H2].
Defined.

End Page_facts.
